(** * hotel/pms_systems.py: the PMS adapter for Mews, its registry and the
      phone validator, embedded with explicit state and exceptions.

    Values decoded from JSON are kept as a [json] tree.  The database is a
    record of three tables, each a finite map from primary key to row.  A
    method of the adapter is a function from the database to its result (a
    value or a raised exception), the database it leaves behind and the lines
    it printed.  The external reservation service, [json.loads] and the
    [phonenumbers] package are not part of the module: they are parameters of
    the section in which the adapter is defined. *)

From stdpp Require Import gmap strings list fin_maps pretty.
From Stdlib Require Import ZArith Ascii String.

Local Open Scope string_scope.
Local Open Scope list_scope.

(** ** Values decoded from JSON *)

(** What [json.loads] hands back: [None], a bool, an int, a float (kept as the
    text of its literal), a str, a list, or a dict (its items in order).  *)
#[local] Set Warnings "-register-all".
Inductive json : Type :=
  | JNull
  | JBool (b : bool)
  | JInt (n : Z)
  | JFloat (lit : string)
  | JStr (s : string)
  | JArr (items : list json)
  | JObj (fields : list (string * json)).

Section json_induction.
Variable P : json → Prop.
Hypothesis P_null : P JNull.
Hypothesis P_bool : ∀ b, P (JBool b).
Hypothesis P_int : ∀ n, P (JInt n).
Hypothesis P_float : ∀ l, P (JFloat l).
Hypothesis P_str : ∀ s, P (JStr s).
Hypothesis P_arr : ∀ items, Forall P items → P (JArr items).
Hypothesis P_obj : ∀ fields, Forall (λ kv, P (snd kv)) fields → P (JObj fields).

Fixpoint json_rect_deep (v : json) : P v :=
  match v with
  | JNull => P_null
  | JBool b => P_bool b
  | JInt n => P_int n
  | JFloat l => P_float l
  | JStr s => P_str s
  | JArr items =>
      P_arr items
        ((fix all (l : list json) : Forall P l :=
            match l with
            | [] => @List.Forall_nil json P
            | x :: l' => @List.Forall_cons json P x l' (json_rect_deep x) (all l')
            end) items)
  | JObj fields =>
      P_obj fields
        ((fix all (l : list (string * json)) : Forall (λ kv, P (snd kv)) l :=
            match l with
            | [] => @List.Forall_nil _ _
            | kv :: l' =>
                @List.Forall_cons _ (λ kv, P (snd kv)) kv l' (json_rect_deep (snd kv)) (all l')
            end) fields)
  end.
End json_induction.

Fixpoint json_eqb (a b : json) {struct a} : bool :=
  match a, b with
  | JNull, JNull => true
  | JBool x, JBool y => Bool.eqb x y
  | JInt x, JInt y => Z.eqb x y
  | JFloat x, JFloat y => String.eqb x y
  | JStr x, JStr y => String.eqb x y
  | JArr xs, JArr ys =>
      (fix go (xs ys : list json) {struct xs} : bool :=
         match xs, ys with
         | [], [] => true
         | x :: xs', y :: ys' => json_eqb x y && go xs' ys'
         | _, _ => false
         end) xs ys
  | JObj xs, JObj ys =>
      (fix go (xs ys : list (string * json)) {struct xs} : bool :=
         match xs, ys with
         | [], [] => true
         | (k, x) :: xs', (k', y) :: ys' =>
             String.eqb k k' && json_eqb x y && go xs' ys'
         | _, _ => false
         end) xs ys
  | _, _ => false
  end.

(** ** Exceptions and results *)

Inductive exn : Type :=
  | APIError (msg : string)
  | KeyError (key : string)
  | TypeError
  | ValueError (msg : string)
  | NumberParseException (msg : string)
  | DoesNotExist
  | MultipleObjectsReturned
  | OtherError (what : string).

Inductive result (A : Type) : Type :=
  | Ok (a : A)
  | Raise (e : exn).
Arguments Ok {A} a.
Arguments Raise {A} e.

(** [d[key]] for a str key: a dict answers or raises KeyError; a list, a str
    and every scalar raise TypeError. *)
Fixpoint assoc (key : string) (fields : list (string * json)) : option json :=
  match fields with
  | [] => None
  | (k, v) :: rest => if String.eqb k key then Some v else assoc key rest
  end.

Definition subscript (d : json) (key : string) : result json :=
  match d with
  | JObj fields =>
      match assoc key fields with
      | Some v => Ok v
      | None => Raise (KeyError key)
      end
  | _ => Raise TypeError
  end.

Fixpoint chars (s : string) : list json :=
  match s with
  | EmptyString => []
  | String c rest => JStr (String c EmptyString) :: chars rest
  end.

(** What [for x in v] walks over: the items of a list, the keys of a dict, the
    characters of a str; anything else is not iterable. *)
Definition iterate (v : json) : result (list json) :=
  match v with
  | JArr items => Ok items
  | JObj fields => Ok (map (λ kv, JStr (fst kv)) fields)
  | JStr s => Ok (chars s)
  | _ => Raise TypeError
  end.

(** ** The persistence layer *)

(** Modelled from the spec: hotel/models.py is not part of the sources.  A
    Hotel is identified by its PMS-specific id; a Stay holds its hotel, the PMS
    reservation and guest ids, check-in, check-out, status and an optional
    guest; a Guest holds a phone and a name.  A row is stored under its primary
    key, and a field holds the value it was given. *)
Record Hotel : Type := { pms_hotel_id : json }.

Record Stay : Type := {
  hotel : positive;
  pms_reservation_id : json;
  pms_guest_id : json;
  checkin : json;
  checkout : json;
  status : json;
  guest : option positive
}.

Record Guest : Type := { phone : json; name : json }.

Record DB : Type := {
  Hotel_objects : gmap positive Hotel;
  Stay_objects : gmap positive Stay;
  Guest_objects : gmap positive Guest
}.

Definition set_Stay_objects (t : gmap positive Stay) (d : DB) : DB :=
  {| Hotel_objects := Hotel_objects d; Stay_objects := t; Guest_objects := Guest_objects d |}.

Definition set_Guest_objects (t : gmap positive Guest) (d : DB) : DB :=
  {| Hotel_objects := Hotel_objects d; Stay_objects := Stay_objects d; Guest_objects := t |}.

Definition Stay_key (s : Stay) : positive * json * json :=
  (hotel s, pms_reservation_id s, pms_guest_id s).

(** Modelled from the spec: hotel/models.py is not part of the sources.  A Stay
    is uniquely identified by its hotel, PMS reservation id and PMS guest id;
    a Guest by its phone, the natural key. *)
Definition unique_keys (d : DB) : Prop :=
  (∀ p q a b, Stay_objects d !! p = Some a → Stay_objects d !! q = Some b →
              Stay_key a = Stay_key b → p = q)
  ∧ (∀ p q a b, Guest_objects d !! p = Some a → Guest_objects d !! q = Some b →
                phone a = phone b → p = q).

(** A model manager over one table: [get] and [update_or_create] look a row up
    by the fields given as keyword arguments, here a decidable test on rows. *)
Section manager.
Context {R : Type}.

Definition matching (P : R → bool) (t : gmap positive R) : list (positive * R) :=
  filter (λ o, P o.2 = true) (map_to_list t).

(** The key of the next inserted row: one past the largest key in use. *)
Definition next_pk (t : gmap positive R) : positive :=
  foldr (λ o acc, Pos.max (Pos.succ o.1) acc) 1%positive (map_to_list t).

Definition objects_get (P : R → bool) (t : gmap positive R) : result (positive * R) :=
  match matching P t with
  | [] => Raise DoesNotExist
  | [o] => Ok o
  | _ :: _ :: _ => Raise MultipleObjectsReturned
  end.

(** [update_or_create(defaults=..., **kwargs)]: the row found by [get] has
    the defaults assigned and is saved; when there is none a row is created
    from the keyword arguments and the defaults.  More than one match raises
    and writes nothing.  The bool is [created]. *)
Definition objects_update_or_create (P : R → bool) (create : R) (update : R → R)
    (t : gmap positive R) : result (positive * R * bool) * gmap positive R :=
  match objects_get P t with
  | Ok (p, r) => (Ok (p, update r, false), <[p := update r]> t)
  | Raise DoesNotExist =>
      let p := next_pk t in (Ok (p, create, true), <[p := create]> t)
  | Raise e => (Raise e, t)
  end.
End manager.

(** ** Methods: database in, result, database and printed lines out *)

Definition M (A : Type) : Type := DB → result A * DB * list string.

#[global] Instance M_ret : MRet M := λ A a d, (Ok a, d, []).

#[global] Instance M_bind : MBind M := λ A B k m d,
  match m d with
  | (Ok a, d1, out1) => let '(r, d2, out2) := k a d1 in (r, d2, out1 ++ out2)
  | (Raise e, d1, out1) => (Raise e, d1, out1)
  end.

(** A computation that reads and writes nothing. *)
Definition eval {A} (r : result A) : M A := λ d, (r, d, []).

Definition print (line : string) : M unit := λ d, (Ok tt, d, [line]).

(** [try: body / except APIError as err: handler(str(err))]. *)
Definition try_except_APIError {A} (body : M A) (handler : string → M A) : M A := λ d,
  match body d with
  | (Raise (APIError msg), d1, out1) =>
      let '(r, d2, out2) := handler msg d1 in (r, d2, out1 ++ out2)
  | other => other
  end.

(** [for x in xs: body(x)], left to right, stopping at the first exception. *)
Fixpoint for_each {A} (xs : list A) (body : A → M unit) : M unit :=
  match xs with
  | [] => mret tt
  | x :: rest => _ ← body x; for_each rest body
  end.

Definition Hotel_objects_get (id_hotel : json) : M (positive * Hotel) := λ d,
  (objects_get (λ h, json_eqb (pms_hotel_id h) id_hotel) (Hotel_objects d), d, []).

Definition Stay_objects_update_or_create (hotel_pk : positive) (res_id guest_id : json)
    (ci co st : json) : M (positive * Stay * bool) := λ d,
  let '(r, t) :=
    objects_update_or_create
      (λ s, Pos.eqb (hotel s) hotel_pk && json_eqb (pms_reservation_id s) res_id
            && json_eqb (pms_guest_id s) guest_id)
      {| hotel := hotel_pk; pms_reservation_id := res_id; pms_guest_id := guest_id;
         checkin := ci; checkout := co; status := st; guest := None |}
      (λ s, {| hotel := hotel s; pms_reservation_id := pms_reservation_id s;
               pms_guest_id := pms_guest_id s;
               checkin := ci; checkout := co; status := st; guest := guest s |})
      (Stay_objects d) in
  (r, set_Stay_objects t d, []).

Definition Guest_objects_update_or_create (ph nm : json) : M (positive * Guest * bool) := λ d,
  let '(r, t) :=
    objects_update_or_create
      (λ g, json_eqb (phone g) ph)
      {| phone := ph; name := nm |}
      (λ g, {| phone := phone g; name := nm |})
      (Guest_objects d) in
  (r, set_Guest_objects t d, []).

(** [stay.guest = guest] on the object in memory. *)
Definition set_guest (s : Stay) (g : positive) : Stay :=
  {| hotel := hotel s; pms_reservation_id := pms_reservation_id s;
     pms_guest_id := pms_guest_id s; checkin := checkin s; checkout := checkout s;
     status := status s; guest := Some g |}.

(** [stay.save()]: every field of the object is written to the row of its key. *)
Definition Stay_save (o : positive * Stay) : M unit := λ d,
  (Ok tt, set_Stay_objects (<[o.1 := o.2]> (Stay_objects d)) d, []).

(** ** The adapter *)

Inductive loads_result : Type :=
  | Decoded (v : json)
  | JSONDecodeError (msg : string).

Section PMS_Mews.
(** [json.loads] on a str. *)
Variable json_loads : string → loads_result.
(** hotel/external_api.py is not part of the sources: the service is a
    function of the id it is asked about, and a call answers with a str or
    raises. *)
Variable get_reservation_details : json → result string.
Variable get_guest_details : json → result string.
(** The [phonenumbers] package. *)
Context {PhoneNumber : Type}.
Variable phonenumbers_parse : json → result PhoneNumber.
Variable phonenumbers_is_valid_number : PhoneNumber → bool.

Definition validate_phone_number (phone_number : json) : result bool :=
  match phonenumbers_parse phone_number with
  | Ok parsed_number => Ok (phonenumbers_is_valid_number parsed_number)
  | Raise (NumberParseException _) => Ok false
  | Raise e => Raise e
  end.

Definition clean_webhook_payload (payload : string) : result json :=
  match json_loads payload with
  | Decoded cleaned_data => Ok cleaned_data
  | JSONDecodeError e => Raise (ValueError ("Error decoding at " +:+ e))
  end.

(** The body of the loop over the events in [handle_webhook]. *)
Definition handle_event (hotel : positive * Hotel) (event : json) : M unit :=
  value ← eval (subscript event "Value");
  res_id ← eval (subscript value "ReservationId");
  payload ← eval (get_reservation_details res_id);
  res_details ← eval (clean_webhook_payload payload);
  guest_id ← eval (subscript res_details "GuestId");
  payload ← eval (get_guest_details guest_id);
  guest_details ← eval (clean_webhook_payload payload);
  ci ← eval (subscript res_details "CheckInDate");
  co ← eval (subscript res_details "CheckOutDate");
  st ← eval (subscript res_details "Status");
  '(stay_pk, stay, _) ← Stay_objects_update_or_create hotel.1 res_id guest_id ci co st;
  phone ← eval (subscript guest_details "Phone");
  _ ← eval (validate_phone_number phone);
  nm ← eval (subscript guest_details "Name");
  '(guest_pk, _, _) ← Guest_objects_update_or_create phone nm;
  Stay_save (stay_pk, set_guest stay guest_pk).

Definition handle_webhook (webhook_data : json) : M bool :=
  id_hotel ← eval (subscript webhook_data "HotelId");
  _ ← try_except_APIError
        (hotel ← Hotel_objects_get id_hotel;
         events ← eval (subscript webhook_data "Events");
         events ← eval (iterate events);
         for_each events (handle_event hotel))
        (λ err, print ("Api error at " +:+ err));
  mret true.

Definition update_tomorrows_stays : M bool := mret true.

Definition stay_has_breakfast (stay : Stay) : M json :=
  let reservation_id := pms_reservation_id stay in
  try_except_APIError
    (payload ← eval (get_reservation_details reservation_id);
     res_details ← eval (clean_webhook_payload payload);
     eval (subscript res_details "BreakfastIncluded"))
    (λ err, _ ← print ("Api error at " +:+ err); mret JNull).
End PMS_Mews.

(** ** The registry *)

Definition ascii_upper (c : ascii) : ascii :=
  let n := N_of_ascii c in
  if ((97 <=? n) && (n <=? 122))%N then ascii_of_N (n - 32) else c.

Definition ascii_lower (c : ascii) : ascii :=
  let n := N_of_ascii c in
  if ((65 <=? n) && (n <=? 90))%N then ascii_of_N (n + 32) else c.

Fixpoint lower (s : string) : string :=
  match s with
  | EmptyString => EmptyString
  | String c rest => String (ascii_lower c) (lower rest)
  end.

(** [str.capitalize] on ASCII text: the first character in upper case, the
    others in lower case.  Bytes above 127 are left as they are. *)
Definition capitalize (s : string) : string :=
  match s with
  | EmptyString => EmptyString
  | String c rest => String (ascii_upper c) (lower rest)
  end.

(** [s[n:]]. *)
Fixpoint string_drop (n : nat) (s : string) : string :=
  match n, s with
  | O, _ => s
  | S n', EmptyString => EmptyString
  | S n', String _ rest => string_drop n' rest
  end.

(** The classes that [inspect.getmembers(current_module, inspect.isclass)]
    lists, imported ones included, each with whether it is abstract. *)
Definition module_classes : list (string * bool) :=
  [("ABC", false); ("APIError", false); ("Guest", false); ("Hotel", false);
   ("PMS", true); ("PMS_Mews", false); ("Stay", false)].

(** What [get_pms] returns: [False] or an instance of a class. *)
Inductive pyobj : Type :=
  | PyFalse
  | Instance (cls : string).

Definition truthy (o : pyobj) : bool :=
  match o with
  | PyFalse => false
  | Instance _ => true
  end.

(** [cls()]: an abstract class cannot be instantiated. *)
Definition instantiate (cls : string) : result pyobj :=
  match list_find (λ c, c.1 = cls) module_classes with
  | Some (_, (_, true)) => Raise TypeError
  | Some (_, (_, false)) => Ok (Instance cls)
  | None => Raise (OtherError "AttributeError")
  end.

Definition get_pms (name : string) : result pyobj :=
  let fullname := "PMS_" +:+ capitalize name in
  let clsnames := map fst module_classes in
  if bool_decide (fullname ∈ clsnames) then instantiate fullname else Ok PyFalse.

(** The [name] property of [PMS]: [self.__class__.__name__[4:]]. *)
Definition PMS_name (self : pyobj) : result string :=
  match self with
  | Instance longname => Ok (string_drop 4 longname)
  | PyFalse => Raise (OtherError "AttributeError")
  end.

(** ** Two runs of the same method, side by side *)

(** Rows have a key, which no write changes, and cells, which writes assign.
    [same c a b] says that rows [a] and [b] hold the same value in cell [c]. *)
Section two_runs.
Context {R K C : Type} (key : R → K) (same : C → R → R → Prop).

(** The same rows under the same primary keys, up to their cells. *)
Definition same_keys (t f : gmap positive R) : Prop :=
  ∀ p, match t !! p, f !! p with
       | Some a, Some b => key a = key b
       | None, None => True
       | _, _ => False
       end.

(** [f] is a later state of [s]: the rows of [s] are still there with their
    keys, and a row that is new in [f] has a key that [s] did not have and
    that no other row of [f] has. *)
Definition extends (s f : gmap positive R) : Prop :=
  (∀ p a, s !! p = Some a → ∃ b, f !! p = Some b ∧ key b = key a)
  ∧ (∀ p b, f !! p = Some b → s !! p = None →
       (∀ q a, s !! q = Some a → key a ≠ key b)
       ∧ (∀ q c, f !! q = Some c → key c = key b → q = p)).

(** [t] has the rows of [f], and every cell of [t] holds what it holds in [f]
    or what it holds in [s]. *)
Definition between (s t f : gmap positive R) : Prop :=
  same_keys t f
  ∧ ∀ p b c, t !! p = Some b →
      (∃ x, f !! p = Some x ∧ same c b x) ∨ (∃ a, s !! p = Some a ∧ same c b a).
End two_runs.

(** The cells of a Stay: the three fields that [update_or_create] assigns
    ([true]) and the guest ([false]).  A Guest has one cell, its name. *)
Definition same_Stay (c : bool) (a b : Stay) : Prop :=
  if c then (checkin a, checkout a, status a) = (checkin b, checkout b, status b)
  else guest a = guest b.

Definition same_Guest (c : unit) (a b : Guest) : Prop := name a = name b.

Definition DB_extends (s f : DB) : Prop :=
  Hotel_objects s = Hotel_objects f
  ∧ extends Stay_key (Stay_objects s) (Stay_objects f)
  ∧ extends phone (Guest_objects s) (Guest_objects f).

Definition DB_between (s t f : DB) : Prop :=
  Hotel_objects t = Hotel_objects f
  ∧ between Stay_key same_Stay (Stay_objects s) (Stay_objects t) (Stay_objects f)
  ∧ between phone same_Guest (Guest_objects s) (Guest_objects t) (Guest_objects f).

(** ** A small world to run the adapter in *)

(** One hotel, a service that knows a few reservations and guests, a decoder
    that inverts [dumps] on the documents of that service and rejects any other
    text, and a stand-in for the phone number package. *)
Module Sample.
Definition dq : string := String (ascii_of_nat 34) EmptyString.

Definition quote (s : string) : string := dq +:+ s +:+ dq.

Fixpoint dumps (v : json) : string :=
  match v with
  | JNull => "null"
  | JBool true => "true"
  | JBool false => "false"
  | JInt n => pretty n
  | JFloat lit => lit
  | JStr s => quote s
  | JArr items =>
      "[" +:+
      (fix go (l : list json) : string :=
         match l with
         | [] => EmptyString
         | x :: rest =>
             dumps x +:+ match rest with [] => EmptyString | _ => ", " end +:+ go rest
         end) items
      +:+ "]"
  | JObj fields =>
      "{" +:+
      (fix go (l : list (string * json)) : string :=
         match l with
         | [] => EmptyString
         | (k, x) :: rest =>
             quote k +:+ ": " +:+ dumps x
             +:+ match rest with [] => EmptyString | _ => ", " end +:+ go rest
         end) fields
      +:+ "}"
  end.

Definition reservation (res_id guest_id : string) (breakfast : bool) : json :=
  JObj [("ReservationId", JStr res_id); ("GuestId", JStr guest_id);
        ("Status", JStr "booked"); ("CheckInDate", JStr "2024-05-01");
        ("CheckOutDate", JStr "2024-05-03"); ("BreakfastIncluded", JBool breakfast)].

Definition guest_record (guest_id nm ph : string) : json :=
  JObj [("GuestId", JStr guest_id); ("Name", JStr nm); ("Phone", JStr ph)].

Definition documents : list json :=
  [reservation "R1" "G1" true; reservation "R4" "G2" false;
   guest_record "G1" "Ada" "+14155552671"; guest_record "G2" "Bob" "abc"].

Definition json_loads (s : string) : loads_result :=
  match list_find (λ v, dumps v = s) documents with
  | Some (_, v) => Decoded v
  | None => JSONDecodeError "Expecting value: line 1 column 1 (char 0)"
  end.

(** R1 and R4 are known, R2 is refused by the service, R3 comes back as text
    that is not JSON. *)
Definition get_reservation_details (res_id : json) : result string :=
  if json_eqb res_id (JStr "R1") then Ok (dumps (reservation "R1" "G1" true))
  else if json_eqb res_id (JStr "R2") then Raise (APIError "R2 is unavailable")
  else if json_eqb res_id (JStr "R3") then Ok "<html>Bad Gateway</html>"
  else if json_eqb res_id (JStr "R4") then Ok (dumps (reservation "R4" "G2" false))
  else Raise (APIError "no such reservation").

Definition get_guest_details (guest_id : json) : result string :=
  if json_eqb guest_id (JStr "G1") then Ok (dumps (guest_record "G1" "Ada" "+14155552671"))
  else if json_eqb guest_id (JStr "G2") then Ok (dumps (guest_record "G2" "Bob" "abc"))
  else Raise (APIError "no such guest").

Definition is_digit (c : ascii) : bool :=
  let n := N_of_ascii c in ((48 <=? n) && (n <=? 57))%N.

Fixpoint all_digits (s : string) : bool :=
  match s with
  | EmptyString => true
  | String c rest => is_digit c && all_digits rest
  end.

(** With no default region only a number written with a leading plus sign
    can be parsed; the parsed number is its digits. *)
Definition phonenumbers_parse (number : json) : result string :=
  match number with
  | JStr (String "+" digits) =>
      if all_digits digits && negb (String.eqb digits EmptyString) then Ok digits
      else Raise (NumberParseException "The string supplied did not seem to be a phone number.")
  | JStr _ => Raise (NumberParseException "Missing or invalid default region.")
  | JNull => Raise (NumberParseException "The phone number supplied was None.")
  | _ => Raise TypeError
  end.

Definition phonenumbers_is_valid_number (digits : string) : bool :=
  ((7 <=? String.length digits) && (String.length digits <=? 15))%nat.

(** A second stand-in, for which every str and None is a valid number. *)
Definition lenient_parse (number : json) : result unit :=
  match number with
  | JStr _ | JNull => Ok tt
  | _ => Raise TypeError
  end.

Definition lenient_is_valid_number (_ : unit) : bool := true.

Definition db : DB :=
  {| Hotel_objects := {[ 1%positive := {| pms_hotel_id := JStr "H1" |} ]};
     Stay_objects := ∅;
     Guest_objects := ∅ |}.

Definition event (res_id : string) : json :=
  JObj [("Name", JStr "ReservationUpdated");
        ("Value", JObj [("ReservationId", JStr res_id)])].

Definition webhook (events : list json) : json :=
  JObj [("HotelId", JStr "H1"); ("Events", JArr events)].

Definition handle_webhook : json → M bool :=
  handle_webhook json_loads get_reservation_details get_guest_details
    phonenumbers_parse phonenumbers_is_valid_number.

Definition stay_has_breakfast : Stay → M json :=
  stay_has_breakfast json_loads get_reservation_details.
End Sample.

(** ** Shapes and invariants of the database *)

(** A payload as the PMS sends it: the hotel id and the list of events. *)
Definition webhook_payload (id_hotel : json) (events : list json) : json :=
  JObj [("HotelId", id_hotel); ("Events", JArr events)].

(** Every Stay belongs to a stored Hotel, and a Stay that has a guest points
    to a stored Guest. *)
Definition references_exist (d : DB) : Prop :=
  (∀ p s, Stay_objects d !! p = Some s → is_Some (Hotel_objects d !! hotel s))
  ∧ (∀ p s g, Stay_objects d !! p = Some s → guest s = Some g →
              is_Some (Guest_objects d !! g)).

(** A method that prints nothing. *)
Definition silent {A} (m : M A) : Prop := ∀ d, (m d).2 = [].

(** ** A second small world: two hotels and a guest without a phone *)

Module Incomplete.
Definition guest_without_phone : json :=
  JObj [("GuestId", JStr "G3"); ("Name", JStr "Cy")].

Definition documents : list json :=
  [Sample.reservation "R5" "G3" false; guest_without_phone].

Definition json_loads (s : string) : loads_result :=
  match list_find (λ v, Sample.dumps v = s) documents with
  | Some (_, v) => Decoded v
  | None => JSONDecodeError "Expecting value: line 1 column 1 (char 0)"
  end.

Definition get_reservation_details (res_id : json) : result string :=
  if json_eqb res_id (JStr "R5") then Ok (Sample.dumps (Sample.reservation "R5" "G3" false))
  else Raise (APIError "no such reservation").

Definition get_guest_details (guest_id : json) : result string :=
  if json_eqb guest_id (JStr "G3") then Ok (Sample.dumps guest_without_phone)
  else Raise (APIError "no such guest").

Definition handle_webhook : json → M bool :=
  handle_webhook json_loads get_reservation_details get_guest_details
    Sample.phonenumbers_parse Sample.phonenumbers_is_valid_number.

(** Hotel H1 and hotel H2, which has one stay. *)
Definition other_stay : Stay :=
  {| hotel := 2; pms_reservation_id := JStr "R9"; pms_guest_id := JStr "G9";
     checkin := JStr "2024-04-01"; checkout := JStr "2024-04-02";
     status := JStr "checked_out"; guest := None |}.

Definition db : DB :=
  {| Hotel_objects := {[ 1%positive := {| pms_hotel_id := JStr "H1" |};
                         2%positive := {| pms_hotel_id := JStr "H2" |} ]};
     Stay_objects := {[ 1%positive := other_stay ]};
     Guest_objects := ∅ |}.
End Incomplete.

(** * Properties *)

(** ** Equality of decoded values *)

Lemma json_eqb_eq (a b : json) : json_eqb a b = true ↔ a = b.
Proof.
  revert b. induction a as [| x | x | x | x | xs IH | xs IH] using json_rect_deep;
    intros [| y | y | y | y | ys | ys]; simpl; try (split; [discriminate | congruence]).
  - done.
  - rewrite Bool.eqb_true_iff. split; congruence.
  - rewrite Z.eqb_eq. split; congruence.
  - rewrite String.eqb_eq. split; congruence.
  - rewrite String.eqb_eq. split; congruence.
  - revert ys. induction IH as [| x xs Hx _ IHxs]; intros [| y ys];
      try (split; [discriminate | congruence]); [done |].
    split.
    + intros [H1 H2]%andb_true_iff. apply Hx in H1. apply IHxs in H2. congruence.
    + intros [= -> ->]. apply andb_true_iff. split; [by apply Hx | by apply IHxs].
  - revert ys. induction IH as [| [k x] xs Hx _ IHxs]; intros [| [k' y] ys];
      try (split; [discriminate | congruence]); [done |].
    simpl in Hx. split.
    + intros [[H0 H1]%andb_true_iff H2]%andb_true_iff.
      apply String.eqb_eq in H0. apply Hx in H1. apply IHxs in H2. congruence.
    + intros [= -> -> ->]. rewrite String.eqb_refl. apply andb_true_iff.
      split; [by apply Hx | by apply IHxs].
Qed.

Lemma json_eqb_neq (a b : json) : json_eqb a b = false ↔ a ≠ b.
Proof.
  split.
  - intros H Heq. apply json_eqb_eq in Heq. congruence.
  - intros H. destruct (json_eqb a b) eqn:E; [| done]. by apply json_eqb_eq in E.
Qed.

(** ** Running a method step by step *)

Lemma run_bind {A B} (m : M A) (k : A → M B) (d : DB) :
  (m ≫= k) d =
  match m d with
  | (Ok a, d1, out1) => let '(r, d2, out2) := k a d1 in (r, d2, out1 ++ out2)
  | (Raise e, d1, out1) => (Raise e, d1, out1)
  end.
Proof. reflexivity. Qed.

Lemma run_eval_bind {A B} (r : result A) (k : A → M B) (d : DB) :
  (eval r ≫= k) d =
  match r with
  | Ok a => k a d
  | Raise e => (Raise e, d, [])
  end.
Proof.
  rewrite run_bind. unfold eval. destruct r as [a | e]; [|done].
  by destruct (k a d) as [[? ?] ?].
Qed.

Lemma for_each_app {A} (xs ys : list A) (body : A → M unit) (d : DB) :
  for_each (xs ++ ys) body d =
  match for_each xs body d with
  | (Ok _, d1, out1) =>
      let '(r, d2, out2) := for_each ys body d1 in (r, d2, out1 ++ out2)
  | (Raise e, d1, out1) => (Raise e, d1, out1)
  end.
Proof.
  revert d. induction xs as [| x xs IH]; intros d; simpl.
  - by destruct (for_each ys body d) as [[? ?] ?].
  - rewrite !run_bind. destruct (body x d) as [[[[] | e] d1] out1]; [|done].
    rewrite IH. destruct (for_each xs body d1) as [[[[] | e] d2] out2]; [|done].
    destruct (for_each ys body d2) as [[r d3] out3]. by rewrite app_assoc.
Qed.

(** ** The registry *)

Lemma instantiate_PMS_subclass (suffix : string) :
  "PMS_" +:+ suffix ∈ map fst module_classes →
  suffix = "Mews" ∧ instantiate ("PMS_" +:+ suffix) = Ok (Instance "PMS_Mews").
Proof.
  simpl. rewrite !elem_of_cons, elem_of_nil.
  intros [H | [H | [H | [H | [H | [H | [H | []]]]]]]]; try discriminate H.
  injection H as H. change (suffix = "Mews") in H. by subst suffix.
Qed.

(** C7. [get_pms] never raises: when "PMS_" followed by the capitalized name
    is the name of a class of the module it returns an instance of that class,
    otherwise [False].  [get_pms("mews")] is an adapter whose [name] is "Mews",
    and [get_pms("nonexistent")] is falsy. *)
Theorem get_pms_registry (name : string) :
  let fullname := "PMS_" +:+ capitalize name in
  (if bool_decide (fullname ∈ map fst module_classes)
   then get_pms name = Ok (Instance fullname)
   else get_pms name = Ok PyFalse)
  ∧ (∃ adapter, get_pms "mews" = Ok adapter ∧ truthy adapter = true
                ∧ PMS_name adapter = Ok "Mews")
  ∧ (∃ sentinel, get_pms "nonexistent" = Ok sentinel ∧ truthy sentinel = false).
Proof.
  intros fullname. split; [| split].
  - unfold get_pms. fold fullname. case_bool_decide as Hin; [|done].
    destruct (instantiate_PMS_subclass _ Hin) as [Heq Hinst].
    subst fullname. rewrite Hinst. by rewrite Heq.
  - by exists (Instance "PMS_Mews").
  - by exists PyFalse.
Qed.

(** ** The adapter: decoding, breakfast, validation, the daily update *)

Section adapter_facts.
Variable json_loads : string → loads_result.
Variable get_reservation_details : json → result string.
Variable get_guest_details : json → result string.
Context {PhoneNumber : Type}.
Variable phonenumbers_parse : json → result PhoneNumber.
Variable phonenumbers_is_valid_number : PhoneNumber → bool.

Local Abbreviation clean := (clean_webhook_payload json_loads).
Local Abbreviation validate :=
  (validate_phone_number phonenumbers_parse phonenumbers_is_valid_number).
Local Abbreviation breakfast := (stay_has_breakfast json_loads get_reservation_details).
Local Abbreviation on_event :=
  (handle_event json_loads get_reservation_details get_guest_details
     phonenumbers_parse phonenumbers_is_valid_number).
Local Abbreviation on_webhook :=
  (handle_webhook json_loads get_reservation_details get_guest_details
     phonenumbers_parse phonenumbers_is_valid_number).

(** C3. On a payload that [json.loads] decodes, [clean_webhook_payload]
    returns the decoded value; on a payload it rejects with a decode error,
    [clean_webhook_payload] raises ValueError. *)
Theorem clean_webhook_payload_decodes (payload : string) :
  (∀ v, json_loads payload = Decoded v → clean payload = Ok v)
  ∧ (∀ msg, json_loads payload = JSONDecodeError msg →
       clean payload = Raise (ValueError ("Error decoding at " +:+ msg))).
Proof.
  unfold clean_webhook_payload. split; intros x Hx; by rewrite Hx.
Qed.

(** C4, as the code has it. [update_tomorrows_stays] returns True at once: it
    asks the service nothing and leaves every table as it found it. *)
Theorem update_tomorrows_stays_writes_nothing (d : DB) :
  update_tomorrows_stays d = (Ok true, d, []).
Proof. reflexivity. Qed.

(** C5. With a known hotel, when handling an event raises APIError after the
    events before it were handled, [handle_webhook] prints the error and
    returns True; the later events are not looked at. *)
Theorem handle_webhook_reports_success_on_APIError
    (webhook_data id_hotel events : json) (hotel : positive * Hotel)
    (before after : list json) (event : json) (msg : string)
    (d d1 d2 : DB) (out1 out2 : list string) :
  subscript webhook_data "HotelId" = Ok id_hotel →
  Hotel_objects_get id_hotel d = (Ok hotel, d, []) →
  subscript webhook_data "Events" = Ok events →
  iterate events = Ok (before ++ event :: after) →
  for_each before (on_event hotel) d = (Ok tt, d1, out1) →
  on_event hotel event d1 = (Raise (APIError msg), d2, out2) →
  on_webhook webhook_data d = (Ok true, d2, out1 ++ out2 ++ ["Api error at " +:+ msg]).
Proof.
  intros Hid Hhotel Hevents Hiter Hbefore Hevent.
  unfold handle_webhook. rewrite Hid, run_eval_bind, run_bind.
  unfold try_except_APIError. rewrite run_bind, Hhotel, Hevents, run_eval_bind.
  rewrite Hiter, run_eval_bind, for_each_app, Hbefore. simpl for_each.
  rewrite run_bind, Hevent. simpl. by rewrite app_nil_r, <- app_assoc.
Qed.

(** C6. When the service answers with a reservation whose BreakfastIncluded
    field is a bool, [stay_has_breakfast] returns that bool; when the service
    raises APIError, it prints the error and returns None. *)
Theorem stay_has_breakfast_lookup (stay : Stay) (d : DB) :
  (∀ payload res_details b,
     get_reservation_details (pms_reservation_id stay) = Ok payload →
     json_loads payload = Decoded res_details →
     subscript res_details "BreakfastIncluded" = Ok (JBool b) →
     breakfast stay d = (Ok (JBool b), d, []))
  ∧ (∀ msg,
       get_reservation_details (pms_reservation_id stay) = Raise (APIError msg) →
       breakfast stay d = (Ok JNull, d, ["Api error at " +:+ msg])).
Proof.
  unfold stay_has_breakfast, try_except_APIError. split.
  - intros payload res_details b Hcall Hloads Hfield.
    rewrite Hcall, run_eval_bind, run_eval_bind.
    unfold clean_webhook_payload. rewrite Hloads, Hfield. done.
  - intros msg Hcall. by rewrite Hcall, run_eval_bind.
Qed.

(** C8. On a str, where parsing either succeeds or fails with
    NumberParseException, [validate_phone_number] returns a bool: False when
    parsing fails, and what [is_valid_number] says of the parsed number
    otherwise. *)
Theorem validate_phone_number_bool (s : string) :
  ((∀ e, phonenumbers_parse (JStr s) = Raise e → ∃ msg, e = NumberParseException msg) →
   ∃ b, validate (JStr s) = Ok b)
  ∧ (∀ msg, phonenumbers_parse (JStr s) = Raise (NumberParseException msg) →
       validate (JStr s) = Ok false)
  ∧ (∀ parsed, phonenumbers_parse (JStr s) = Ok parsed →
       validate (JStr s) = Ok (phonenumbers_is_valid_number parsed)).
Proof.
  unfold validate_phone_number. split; [| split].
  - intros Hparse. destruct (phonenumbers_parse (JStr s)) as [parsed | e]; [by eexists |].
    destruct (Hparse e eq_refl) as [msg ->]. by eexists.
  - intros msg Hparse. by rewrite Hparse.
  - intros parsed Hparse. by rewrite Hparse.
Qed.
End adapter_facts.

Lemma clean_webhook_payload_decodes_witness :
  clean_webhook_payload Sample.json_loads
    (Sample.dumps (Sample.guest_record "G1" "Ada" "+14155552671"))
  = Ok (Sample.guest_record "G1" "Ada" "+14155552671")
  ∧ clean_webhook_payload Sample.json_loads "<html>Bad Gateway</html>"
    = Raise (ValueError "Error decoding at Expecting value: line 1 column 1 (char 0)").
Proof.
  split.
  - apply (proj1 (clean_webhook_payload_decodes Sample.json_loads _)). reflexivity.
  - apply (proj2 (clean_webhook_payload_decodes Sample.json_loads _)). reflexivity.
Defined.

Lemma handle_webhook_reports_success_on_APIError_witness :
  ∃ d out,
    Sample.handle_webhook (Sample.webhook [Sample.event "R1"; Sample.event "R2"]) Sample.db
    = (Ok true, d, out).
Proof.
  eexists _, _. unfold Sample.handle_webhook.
  eapply (handle_webhook_reports_success_on_APIError _ _ _ _ _ _
            (JStr "H1") (JArr [Sample.event "R1"; Sample.event "R2"])
            (1%positive, {| pms_hotel_id := JStr "H1" |})
            [Sample.event "R1"] [] (Sample.event "R2") "R2 is unavailable" Sample.db);
    vm_compute; reflexivity.
Defined.

Lemma stay_has_breakfast_lookup_witness :
  let stay (res_id : string) :=
    {| hotel := 1; pms_reservation_id := JStr res_id; pms_guest_id := JStr "G1";
       checkin := JNull; checkout := JNull; status := JNull; guest := None |} in
  Sample.stay_has_breakfast (stay "R1") Sample.db = (Ok (JBool true), Sample.db, [])
  ∧ Sample.stay_has_breakfast (stay "R2") Sample.db
    = (Ok JNull, Sample.db, ["Api error at R2 is unavailable"]).
Proof.
  intros stay. split.
  - apply (proj1 (stay_has_breakfast_lookup Sample.json_loads
                    Sample.get_reservation_details (stay "R1") Sample.db)
             (Sample.dumps (Sample.reservation "R1" "G1" true))
             (Sample.reservation "R1" "G1" true) true); reflexivity.
  - apply (proj2 (stay_has_breakfast_lookup Sample.json_loads
                    Sample.get_reservation_details (stay "R2") Sample.db)).
    reflexivity.
Defined.

Lemma validate_phone_number_bool_witness :
  (∃ b, validate_phone_number Sample.phonenumbers_parse
          Sample.phonenumbers_is_valid_number (JStr "abc") = Ok b)
  ∧ validate_phone_number Sample.phonenumbers_parse
      Sample.phonenumbers_is_valid_number (JStr "abc") = Ok false
  ∧ validate_phone_number Sample.phonenumbers_parse
      Sample.phonenumbers_is_valid_number (JStr "+14155552671") = Ok true.
Proof.
  split; [| split].
  - apply (proj1 (validate_phone_number_bool Sample.phonenumbers_parse
                    Sample.phonenumbers_is_valid_number "abc")).
    intros e [= <-]. by eexists.
  - apply (proj1 (proj2 (validate_phone_number_bool Sample.phonenumbers_parse
                           Sample.phonenumbers_is_valid_number "abc"))
             "Missing or invalid default region.").
    reflexivity.
  - apply (proj2 (proj2 (validate_phone_number_bool Sample.phonenumbers_parse
                           Sample.phonenumbers_is_valid_number "+14155552671"))
             "14155552671").
    reflexivity.
Defined.

(** ** Looking rows up by their fields *)

Section manager_facts.
Context {R : Type}.
Implicit Types (P : R → bool) (t : gmap positive R).

Lemma elem_of_matching P t p r :
  (p, r) ∈ matching P t ↔ t !! p = Some r ∧ P r = true.
Proof.
  unfold matching. rewrite list_elem_of_filter, elem_of_map_to_list. simpl. tauto.
Qed.

Lemma NoDup_matching P t : NoDup (matching P t).
Proof. apply NoDup_filter, NoDup_map_to_list. Qed.

Lemma next_pk_above t p r : t !! p = Some r → (p < next_pk t)%positive.
Proof.
  rewrite <- elem_of_map_to_list. unfold next_pk.
  induction (map_to_list t) as [| o l IH]; intros Hin.
  - by apply elem_of_nil in Hin.
  - apply elem_of_cons in Hin as [<- | Hin]; simpl; [lia |].
    specialize (IH Hin). lia.
Qed.

Lemma next_pk_fresh t : t !! next_pk t = None.
Proof.
  destruct (t !! next_pk t) as [r |] eqn:E; [| done].
  apply next_pk_above in E. lia.
Qed.

(** [get] finds no row, exactly one, or several. *)
Lemma objects_get_cases P t :
  (objects_get P t = Raise DoesNotExist ∧ ∀ p r, t !! p = Some r → P r = false)
  ∨ (∃ p r, objects_get P t = Ok (p, r) ∧ t !! p = Some r ∧ P r = true
            ∧ ∀ q b, t !! q = Some b → P b = true → q = p)
  ∨ (objects_get P t = Raise MultipleObjectsReturned
     ∧ ∃ p q a b, p ≠ q ∧ t !! p = Some a ∧ P a = true ∧ t !! q = Some b ∧ P b = true).
Proof.
  unfold objects_get.
  pose proof (elem_of_matching P t) as Hin. pose proof (NoDup_matching P t) as Hnd.
  destruct (matching P t) as [| [p a] [| [q b] l]].
  - left. split; [done |]. intros p r Hp. destruct (P r) eqn:E; [| done].
    exfalso. eapply not_elem_of_nil, Hin. eauto.
  - right; left. exists p, a.
    destruct (proj1 (Hin p a)) as [Hp Ha]; [by left |].
    repeat split; try done. intros q b Hq Hb.
    assert ((q, b) ∈ [(p, a)]) as Hqb by (apply Hin; done).
    apply list_elem_of_singleton in Hqb. congruence.
  - right; right. split; [done |]. exists p, q, a, b.
    destruct (proj1 (Hin p a)) as [Hp Ha]; [by left |].
    destruct (proj1 (Hin q b)) as [Hq Hb]; [by right; left |].
    repeat split; try done. intros ->.
    apply NoDup_cons in Hnd as [Hnotin _]. apply Hnotin.
    assert (a = b) as -> by congruence. by left.
Qed.

Lemma objects_get_none P t :
  (∀ p r, t !! p = Some r → P r = false) → objects_get P t = Raise DoesNotExist.
Proof.
  intros Hnone.
  destruct (objects_get_cases P t) as [[H _] | [(p & r & _ & Hp & Hr & _) | (_ & p & q & a & b & _ & Hp & Ha & _)]];
    [done | |]; apply Hnone in Hp; congruence.
Qed.

Lemma objects_get_only P t p r :
  t !! p = Some r → P r = true → (∀ q b, t !! q = Some b → P b = true → q = p) →
  objects_get P t = Ok (p, r).
Proof.
  intros Hp Hr Honly.
  destruct (objects_get_cases P t) as [[_ H] | [(p' & r' & Hget & Hp' & Hr' & _) | (_ & p1 & p2 & a & b & Hne & Hp1 & Ha & Hp2 & Hb)]].
  - apply H in Hp. congruence.
  - rewrite Hget. pose proof (Honly _ _ Hp' Hr'). subst p'. congruence.
  - pose proof (Honly _ _ Hp1 Ha). pose proof (Honly _ _ Hp2 Hb). congruence.
Qed.

Lemma objects_get_several P t p q a b :
  p ≠ q → t !! p = Some a → P a = true → t !! q = Some b → P b = true →
  objects_get P t = Raise MultipleObjectsReturned.
Proof.
  intros Hne Hp Ha Hq Hb.
  destruct (objects_get_cases P t) as [[_ H] | [(p' & r' & _ & _ & _ & Honly) | [H _]]];
    [| | done].
  - apply H in Hp. congruence.
  - pose proof (Honly _ _ Hp Ha). pose proof (Honly _ _ Hq Hb). congruence.
Qed.

(** With at most one matching row, [update_or_create] succeeds and leaves
    exactly one: the row it returns. *)
Lemma objects_update_or_create_at_most_one P (create : R) (update : R → R) t :
  (∀ p q a b, t !! p = Some a → t !! q = Some b → P a = true → P b = true → p = q) →
  ∃ p r created,
    objects_update_or_create P create update t = (Ok (p, r, created), <[p := r]> t)
    ∧ ((r = create ∧ ∀ q b, t !! q = Some b → P b = false)
       ∨ (∃ r0, t !! p = Some r0 ∧ P r0 = true ∧ r = update r0
                ∧ ∀ q b, t !! q = Some b → P b = true → q = p)).
Proof.
  intros Huniq. unfold objects_update_or_create.
  destruct (objects_get_cases P t) as [[-> Hnone] | [(p & r & -> & Hp & Hr & Honly) | (_ & p & q & a & b & Hne & Hp & Ha & Hq & Hb)]].
  - eexists _, _, _. split; [done |]. by left.
  - eexists _, _, _. split; [done |]. right. eauto.
  - destruct Hne. eauto.
Qed.
End manager_facts.

Lemma Stay_test_key (s : Stay) (h : positive) (rid gid : json) :
  Pos.eqb (hotel s) h && json_eqb (pms_reservation_id s) rid
    && json_eqb (pms_guest_id s) gid = true
  ↔ Stay_key s = (h, rid, gid).
Proof.
  unfold Stay_key. rewrite !andb_true_iff, Pos.eqb_eq, !json_eqb_eq.
  split; [intros [[-> ->] ->] | intros [= -> -> ->]]; done.
Qed.

Ltac step_with H := rewrite ?run_eval_bind; rewrite H; lazy beta iota.

(** ** Handling a webhook *)

Section handle_webhook_facts.
Variable json_loads : string → loads_result.
Variable get_reservation_details : json → result string.
Variable get_guest_details : json → result string.
Context {PhoneNumber : Type}.
Variable phonenumbers_parse : json → result PhoneNumber.
Variable phonenumbers_is_valid_number : PhoneNumber → bool.

Local Abbreviation validate :=
  (validate_phone_number phonenumbers_parse phonenumbers_is_valid_number).
Local Abbreviation on_event :=
  (handle_event json_loads get_reservation_details get_guest_details
     phonenumbers_parse phonenumbers_is_valid_number).
Local Abbreviation on_webhook :=
  (handle_webhook json_loads get_reservation_details get_guest_details
     phonenumbers_parse phonenumbers_is_valid_number).

Lemma handle_event_stores
    (event value res_id res_details guest_id guest_details ci co st ph nm : json)
    (hotel_row : positive * Hotel) (payload1 payload2 : string) (valid : bool) (d : DB) :
  subscript event "Value" = Ok value →
  subscript value "ReservationId" = Ok res_id →
  get_reservation_details res_id = Ok payload1 →
  json_loads payload1 = Decoded res_details →
  subscript res_details "GuestId" = Ok guest_id →
  get_guest_details guest_id = Ok payload2 →
  json_loads payload2 = Decoded guest_details →
  subscript res_details "CheckInDate" = Ok ci →
  subscript res_details "CheckOutDate" = Ok co →
  subscript res_details "Status" = Ok st →
  subscript guest_details "Phone" = Ok ph →
  validate ph = Ok valid →
  subscript guest_details "Name" = Ok nm →
  unique_keys d →
  ∃ d' stay_pk guest_pk,
    on_event hotel_row event d = (Ok tt, d', [])
    ∧ Stay_objects d' !! stay_pk
      = Some {| hotel := hotel_row.1; pms_reservation_id := res_id;
                pms_guest_id := guest_id; checkin := ci; checkout := co;
                status := st; guest := Some guest_pk |}
    ∧ (∀ p s, Stay_objects d' !! p = Some s →
              Stay_key s = (hotel_row.1, res_id, guest_id) → p = stay_pk)
    ∧ Guest_objects d' !! guest_pk = Some {| phone := ph; name := nm |}
    ∧ (∀ p g, Guest_objects d' !! p = Some g → phone g = ph → p = guest_pk).
Proof.
  intros Hvalue Hres Hcall1 Hloads1 Hgid Hcall2 Hloads2
    Hci Hco Hst Hph Hvalid Hnm [Hstays Hguests].
  unfold handle_event. step_with Hvalue. step_with Hres. step_with Hcall1.
  unfold clean_webhook_payload. step_with Hloads1. step_with Hgid. step_with Hcall2.
  step_with Hloads2. step_with Hci. step_with Hco. step_with Hst.
  rewrite run_bind. unfold Stay_objects_update_or_create.
  match goal with
  | |- context [objects_update_or_create ?P ?c ?u (Stay_objects d)] =>
      destruct (objects_update_or_create_at_most_one P c u (Stay_objects d))
        as (sp & stay & created & -> & Hstay)
  end.
  { intros p q a b Hp Hq Ha Hb. apply Stay_test_key in Ha, Hb.
    eapply Hstays; eauto. congruence. }
  lazy beta iota. step_with Hph. step_with Hvalid. step_with Hnm.
  rewrite run_bind. unfold Guest_objects_update_or_create.
  match goal with
  | |- context [objects_update_or_create ?P ?c ?u (Guest_objects ?d1)] =>
      destruct (objects_update_or_create_at_most_one P c u (Guest_objects d1))
        as (gp & g & gcreated & -> & Hguest)
  end.
  { simpl. intros p q a b Hp Hq Ha Hb. apply json_eqb_eq in Ha, Hb.
    eapply Hguests; eauto. congruence. }
  lazy beta iota. unfold Stay_save. simpl.
  eexists _, sp, gp. split; [reflexivity |]. simpl.
  rewrite insert_insert_eq, !lookup_insert_eq.
  simpl in Hguest. split; [| split; [| split]].
  - f_equal. destruct Hstay as [[-> _] | (r0 & _ & Hk & -> & _)]; [done |].
    apply Stay_test_key in Hk. injection Hk as H1 H2 H3.
    unfold set_guest. simpl. by rewrite H1, H2, H3.
  - intros p s Hp Hk. apply lookup_insert_Some in Hp as [[<- _] | [Hne Hp]]; [done |].
    apply Stay_test_key in Hk.
    destruct Hstay as [[_ Hnone] | (r0 & _ & _ & _ & Honly)].
    + apply Hnone in Hp. congruence.
    + by apply Honly with s.
  - f_equal. destruct Hguest as [[-> _] | (r0 & _ & Hk & -> & _)]; [done |].
    apply json_eqb_eq in Hk. by rewrite Hk.
  - intros p g0 Hp Hk. apply lookup_insert_Some in Hp as [[<- _] | [Hne Hp]]; [done |].
    apply json_eqb_eq in Hk.
    destruct Hguest as [[_ Hnone] | (r0 & _ & _ & _ & Honly)].
    + apply Hnone in Hp. congruence.
    + by apply Honly with g0.
Qed.

(** C1. With a known hotel and one event whose reservation and guest are
    fetched and decoded, on a database where keys are unique,
    [handle_webhook] returns True and leaves exactly one Stay with the key
    (hotel, reservation id, guest id), holding the fetched CheckInDate,
    CheckOutDate and Status and pointing to the one Guest with the fetched
    phone, whose name is the fetched Name. *)
Theorem handle_webhook_single_event
    (webhook_data id_hotel events event value res_id res_details guest_id
       guest_details ci co st ph nm : json)
    (hotel_row : positive * Hotel) (payload1 payload2 : string) (valid : bool) (d : DB) :
  subscript webhook_data "HotelId" = Ok id_hotel →
  Hotel_objects_get id_hotel d = (Ok hotel_row, d, []) →
  subscript webhook_data "Events" = Ok events →
  iterate events = Ok [event] →
  subscript event "Value" = Ok value →
  subscript value "ReservationId" = Ok res_id →
  get_reservation_details res_id = Ok payload1 →
  json_loads payload1 = Decoded res_details →
  subscript res_details "GuestId" = Ok guest_id →
  get_guest_details guest_id = Ok payload2 →
  json_loads payload2 = Decoded guest_details →
  subscript res_details "CheckInDate" = Ok ci →
  subscript res_details "CheckOutDate" = Ok co →
  subscript res_details "Status" = Ok st →
  subscript guest_details "Phone" = Ok ph →
  validate ph = Ok valid →
  subscript guest_details "Name" = Ok nm →
  unique_keys d →
  ∃ d' stay_pk guest_pk,
    on_webhook webhook_data d = (Ok true, d', [])
    ∧ Stay_objects d' !! stay_pk
      = Some {| hotel := hotel_row.1; pms_reservation_id := res_id;
                pms_guest_id := guest_id; checkin := ci; checkout := co;
                status := st; guest := Some guest_pk |}
    ∧ (∀ p s, Stay_objects d' !! p = Some s →
              Stay_key s = (hotel_row.1, res_id, guest_id) → p = stay_pk)
    ∧ Guest_objects d' !! guest_pk = Some {| phone := ph; name := nm |}
    ∧ (∀ p g, Guest_objects d' !! p = Some g → phone g = ph → p = guest_pk).
Proof.
  intros Hid Hhotel Hevents Hiter Hvalue Hres Hcall1 Hloads1 Hgid Hcall2 Hloads2
    Hci Hco Hst Hph Hvalid Hnm Hkeys.
  destruct (handle_event_stores event value res_id res_details guest_id guest_details
              ci co st ph nm hotel_row payload1 payload2 valid d)
    as (d' & sp & gp & Hrun & Hfacts); try done.
  exists d', sp, gp. split; [| done].
  unfold handle_webhook. step_with Hid. rewrite run_bind.
  unfold try_except_APIError. rewrite run_bind, Hhotel. lazy beta iota.
  step_with Hevents. step_with Hiter. simpl for_each. rewrite run_bind, Hrun.
  reflexivity.
Qed.

(** C10, amended. [handle_webhook] lets every exception but APIError reach
    the caller.  A missing "HotelId" raises KeyError; an unknown hotel raises
    DoesNotExist; with the hotel found a missing "Events" raises KeyError;
    and for an event that is reached, the events before it having been
    handled without an exception, a missing "Value" or "ReservationId" raises
    KeyError and a service answer that is not JSON raises ValueError.  What
    the events before it wrote stays written. *)
Theorem handle_webhook_propagates_other_errors (webhook_data : json) (d : DB) :
  (subscript webhook_data "HotelId" = Raise (KeyError "HotelId") →
   on_webhook webhook_data d = (Raise (KeyError "HotelId"), d, []))
  ∧ ∀ id_hotel, subscript webhook_data "HotelId" = Ok id_hotel →
    ((∀ p h, Hotel_objects d !! p = Some h → pms_hotel_id h ≠ id_hotel) →
     on_webhook webhook_data d = (Raise DoesNotExist, d, []))
    ∧ ∀ hotel_row, Hotel_objects_get id_hotel d = (Ok hotel_row, d, []) →
      (subscript webhook_data "Events" = Raise (KeyError "Events") →
       on_webhook webhook_data d = (Raise (KeyError "Events"), d, []))
      ∧ ∀ events before event after d1 out1,
        subscript webhook_data "Events" = Ok events →
        iterate events = Ok (before ++ event :: after) →
        for_each before (on_event hotel_row) d = (Ok tt, d1, out1) →
        (subscript event "Value" = Raise (KeyError "Value") →
         on_webhook webhook_data d = (Raise (KeyError "Value"), d1, out1))
        ∧ ∀ value, subscript event "Value" = Ok value →
          (subscript value "ReservationId" = Raise (KeyError "ReservationId") →
           on_webhook webhook_data d = (Raise (KeyError "ReservationId"), d1, out1))
          ∧ ∀ res_id payload1,
            subscript value "ReservationId" = Ok res_id →
            get_reservation_details res_id = Ok payload1 →
            (∀ msg, json_loads payload1 = JSONDecodeError msg →
               on_webhook webhook_data d
               = (Raise (ValueError ("Error decoding at " +:+ msg)), d1, out1))
            ∧ ∀ res_details guest_id payload2 msg,
              json_loads payload1 = Decoded res_details →
              subscript res_details "GuestId" = Ok guest_id →
              get_guest_details guest_id = Ok payload2 →
              json_loads payload2 = JSONDecodeError msg →
              on_webhook webhook_data d
              = (Raise (ValueError ("Error decoding at " +:+ msg)), d1, out1).
Proof.
  unfold handle_webhook. split.
  { intros Hid. by step_with Hid. }
  intros id_hotel Hid. step_with Hid. rewrite run_bind.
  unfold try_except_APIError. rewrite run_bind. split.
  { intros Hnone. unfold Hotel_objects_get. rewrite objects_get_none; [done |].
    intros p h Hp. apply json_eqb_neq. eauto. }
  intros hotel_row Hhotel. rewrite Hhotel. lazy beta iota. split.
  { intros Hevents. by step_with Hevents. }
  intros events before event after d1 out1 Hevents Hiter Hbefore.
  step_with Hevents. step_with Hiter. rewrite for_each_app, Hbefore. simpl for_each.
  rewrite run_bind. unfold handle_event. split.
  { intros Hvalue. step_with Hvalue. simpl. by rewrite app_nil_r. }
  intros value Hvalue. step_with Hvalue. split.
  { intros Hres. step_with Hres. simpl. by rewrite app_nil_r. }
  intros res_id payload1 Hres Hcall1. step_with Hres. step_with Hcall1.
  unfold clean_webhook_payload. split.
  { intros msg Hloads1. step_with Hloads1. simpl. by rewrite app_nil_r. }
  intros res_details guest_id payload2 msg Hloads1 Hgid Hcall2 Hloads2.
  step_with Hloads1. step_with Hgid. step_with Hcall2. step_with Hloads2.
  simpl. by rewrite app_nil_r.
Qed.
End handle_webhook_facts.

Lemma unique_keys_Sample_db : unique_keys Sample.db.
Proof.
  split; intros p q a b Hp; simpl in Hp; by rewrite lookup_empty in Hp.
Defined.

Lemma handle_webhook_single_event_witness :
  ∃ d' stay_pk guest_pk,
    Sample.handle_webhook (Sample.webhook [Sample.event "R1"]) Sample.db = (Ok true, d', [])
    ∧ Stay_objects d' !! stay_pk
      = Some {| hotel := 1; pms_reservation_id := JStr "R1"; pms_guest_id := JStr "G1";
                checkin := JStr "2024-05-01"; checkout := JStr "2024-05-03";
                status := JStr "booked"; guest := Some guest_pk |}
    ∧ Guest_objects d' !! guest_pk
      = Some {| phone := JStr "+14155552671"; name := JStr "Ada" |}.
Proof.
  destruct (handle_webhook_single_event
              Sample.json_loads Sample.get_reservation_details Sample.get_guest_details
              Sample.phonenumbers_parse Sample.phonenumbers_is_valid_number
              (Sample.webhook [Sample.event "R1"]) (JStr "H1") (JArr [Sample.event "R1"])
              (Sample.event "R1") (JObj [("ReservationId", JStr "R1")]) (JStr "R1")
              (Sample.reservation "R1" "G1" true) (JStr "G1")
              (Sample.guest_record "G1" "Ada" "+14155552671")
              (JStr "2024-05-01") (JStr "2024-05-03") (JStr "booked")
              (JStr "+14155552671") (JStr "Ada")
              (1%positive, {| pms_hotel_id := JStr "H1" |})
              (Sample.dumps (Sample.reservation "R1" "G1" true))
              (Sample.dumps (Sample.guest_record "G1" "Ada" "+14155552671"))
              true Sample.db)
    as (d' & stay_pk & guest_pk & Hrun & Hstay & _ & Hguest & _);
    try reflexivity; [apply unique_keys_Sample_db |].
  exists d', stay_pk, guest_pk. auto.
Defined.

Lemma handle_webhook_propagates_other_errors_witness :
  Sample.handle_webhook (JObj []) Sample.db = (Raise (KeyError "HotelId"), Sample.db, [])
  ∧ ∃ d1,
      Sample.handle_webhook (Sample.webhook [Sample.event "R1"; Sample.event "R3"]) Sample.db
      = (Raise (ValueError "Error decoding at Expecting value: line 1 column 1 (char 0)"),
         d1, []).
Proof.
  split.
  - apply (proj1 (handle_webhook_propagates_other_errors
                    Sample.json_loads Sample.get_reservation_details
                    Sample.get_guest_details Sample.phonenumbers_parse
                    Sample.phonenumbers_is_valid_number (JObj []) Sample.db)).
    reflexivity.
  - set (before := for_each [Sample.event "R1"]
                     (handle_event Sample.json_loads Sample.get_reservation_details
                        Sample.get_guest_details Sample.phonenumbers_parse
                        Sample.phonenumbers_is_valid_number
                        (1%positive, {| pms_hotel_id := JStr "H1" |}))
                     Sample.db).
    assert (before = (Ok tt, before.1.2, [])) as Hbefore by (vm_compute; reflexivity).
    exists before.1.2.
    pose proof (proj2 (handle_webhook_propagates_other_errors
                         Sample.json_loads Sample.get_reservation_details
                         Sample.get_guest_details Sample.phonenumbers_parse
                         Sample.phonenumbers_is_valid_number
                         (Sample.webhook [Sample.event "R1"; Sample.event "R3"]) Sample.db)
                 (JStr "H1") eq_refl) as [_ Hhotel].
    pose proof (Hhotel (1%positive, {| pms_hotel_id := JStr "H1" |}) eq_refl) as [_ Hevents].
    pose proof (Hevents (JArr [Sample.event "R1"; Sample.event "R3"])
                  [Sample.event "R1"] (Sample.event "R3") [] before.1.2 []
                  eq_refl eq_refl Hbefore) as [_ Hvalue].
    pose proof (Hvalue (JObj [("ReservationId", JStr "R3")]) eq_refl) as [_ Hres].
    pose proof (Hres (JStr "R3") "<html>Bad Gateway</html>" eq_refl eq_refl) as [Hloads _].
    exact (Hloads "Expecting value: line 1 column 1 (char 0)" eq_refl).
Defined.

(** C10, as stated, fails.  The second event has no "Value", but the first
    one makes the service raise APIError: the loop is left before the second
    event is looked at, and [handle_webhook] returns True. *)
Lemma handle_webhook_missing_key_not_raised :
  let webhook_data :=
    Sample.webhook [Sample.event "R2"; JObj [("Name", JStr "ReservationUpdated")]] in
  (∃ events items event,
     subscript webhook_data "Events" = Ok events ∧ iterate events = Ok items
     ∧ event ∈ items ∧ subscript event "Value" = Raise (KeyError "Value"))
  ∧ Sample.handle_webhook webhook_data Sample.db
    = (Ok true, Sample.db, ["Api error at R2 is unavailable"])
  ∧ ¬ ∃ e d' out, Sample.handle_webhook webhook_data Sample.db = (Raise e, d', out).
Proof.
  intros webhook_data. split; [| split].
  - eexists _, _, (JObj [("Name", JStr "ReservationUpdated")]).
    split; [reflexivity |]. split; [reflexivity |]. split; [| reflexivity].
    right. left.
  - reflexivity.
  - intros (e & d' & out & H). vm_compute in H. discriminate H.
Qed.

(** ** The result of validation is not used *)

Lemma run_bind_ext {A B} (m : M A) (k1 k2 : A → M B) (d : DB) :
  (∀ a d', k1 a d' = k2 a d') → (m ≫= k1) d = (m ≫= k2) d.
Proof.
  intros Hk. rewrite !run_bind. destruct (m d) as [[[a | e] d1] out1]; [| done].
  by rewrite Hk.
Qed.

Lemma for_each_ext {A} (xs : list A) (body1 body2 : A → M unit) (d : DB) :
  (∀ x d', body1 x d' = body2 x d') → for_each xs body1 d = for_each xs body2 d.
Proof.
  intros Hbody. revert d. induction xs as [| x xs IH]; intros d; [done |].
  simpl. rewrite !run_bind, Hbody. destruct (body2 x d) as [[[[] | e] d1] out1]; [| done].
  by rewrite IH.
Qed.

Lemma run_bind_ext_l {A B} (m1 m2 : M A) (k : A → M B) (d : DB) :
  m1 d = m2 d → (m1 ≫= k) d = (m2 ≫= k) d.
Proof. intros Hm. by rewrite !run_bind, Hm. Qed.

Lemma try_except_APIError_ext {A} (body1 body2 : M A) (handler : string → M A) (d : DB) :
  body1 d = body2 d →
  try_except_APIError body1 handler d = try_except_APIError body2 handler d.
Proof. unfold try_except_APIError. by intros ->. Qed.

Section validation_is_discarded.
Variable json_loads : string → loads_result.
Variable get_reservation_details : json → result string.
Variable get_guest_details : json → result string.
Context {PhoneNumber1 PhoneNumber2 : Type}.
Variable parse1 : json → result PhoneNumber1.
Variable is_valid1 : PhoneNumber1 → bool.
Variable parse2 : json → result PhoneNumber2.
Variable is_valid2 : PhoneNumber2 → bool.

Lemma handle_event_ignores_validation (hotel_row : positive * Hotel) (event : json) (d : DB) :
  (∀ phone,
     match validate_phone_number parse1 is_valid1 phone,
           validate_phone_number parse2 is_valid2 phone with
     | Ok _, Ok _ => True
     | Raise e1, Raise e2 => e1 = e2
     | _, _ => False
     end) →
  handle_event json_loads get_reservation_details get_guest_details parse1 is_valid1
    hotel_row event d
  = handle_event json_loads get_reservation_details get_guest_details parse2 is_valid2
      hotel_row event d.
Proof.
  intros Hsame. unfold handle_event.
  do 10 (apply run_bind_ext; intros ? ?).
  apply run_bind_ext; intros [[stay_pk stay] created] d0.
  apply run_bind_ext; intros phone d1. rewrite !run_eval_bind.
  specialize (Hsame phone).
  destruct (validate_phone_number parse1 is_valid1 phone),
    (validate_phone_number parse2 is_valid2 phone); try done. congruence.
Qed.

(** Two phone number packages under which validation returns for the same
    phones, whatever it returns, give the same result, the same rows and the
    same printed lines. *)
Lemma handle_webhook_ignores_validation (webhook_data : json) (d : DB) :
  (∀ phone,
     match validate_phone_number parse1 is_valid1 phone,
           validate_phone_number parse2 is_valid2 phone with
     | Ok _, Ok _ => True
     | Raise e1, Raise e2 => e1 = e2
     | _, _ => False
     end) →
  handle_webhook json_loads get_reservation_details get_guest_details parse1 is_valid1
    webhook_data d
  = handle_webhook json_loads get_reservation_details get_guest_details parse2 is_valid2
      webhook_data d.
Proof.
  intros Hsame. unfold handle_webhook.
  apply run_bind_ext; intros id_hotel d0.
  apply run_bind_ext_l, try_except_APIError_ext.
  do 3 (apply run_bind_ext; intros ? ?).
  apply for_each_ext. intros event dn. by apply handle_event_ignores_validation.
Qed.
End validation_is_discarded.

(** ** A second call with the same payload *)

Section two_runs_facts.
Context {R K C : Type} (key : R → K) (same : C → R → R → Prop).
Hypothesis same_equiv : ∀ c, Equivalence (same c).
Hypothesis same_all : ∀ a b, key a = key b → (∀ c, same c a b) → a = b.

Implicit Types (s t f : gmap positive R).

Lemma extends_refl s : extends key s s.
Proof.
  split.
  - intros p a Hp. eauto.
  - intros p b Hp Hnone. congruence.
Qed.

Lemma extends_trans s m f : extends key s m → extends key m f → extends key s f.
Proof.
  intros [Hsm1 Hsm2] [Hmf1 Hmf2]. split.
  - intros p a Hp. destruct (Hsm1 _ _ Hp) as (b & Hb & Hkb).
    destruct (Hmf1 _ _ Hb) as (c & Hc & Hkc). exists c. split; [done | congruence].
  - intros p b Hp Hnone. destruct (m !! p) as [b0 |] eqn:Hm.
    + destruct (Hmf1 _ _ Hm) as (b' & Hb' & Hkb').
      assert (b' = b) as -> by congruence.
      destruct (Hsm2 _ _ Hm Hnone) as [Hfresh Honly]. split.
      * intros q a Hq. rewrite Hkb'. eauto.
      * intros q c Hq Hkc. destruct (m !! q) as [c0 |] eqn:Hmq.
        -- destruct (Hmf1 _ _ Hmq) as (c' & Hc' & Hkc').
           assert (c' = c) as -> by congruence.
           apply (Honly q c0 Hmq). congruence.
        -- destruct (Hmf2 _ _ Hq Hmq) as [Hfresh' _].
           destruct (Hfresh' _ _ Hm). congruence.
    + destruct (Hmf2 _ _ Hp Hm) as [Hfresh Honly]. split; [| done].
      intros q a Hq. destruct (Hsm1 _ _ Hq) as (a' & Ha' & Hka').
      rewrite <- Hka'. eauto.
Qed.

Lemma extends_insert_same_key s p a a' :
  s !! p = Some a → key a' = key a → extends key s (<[p := a']> s).
Proof.
  intros Hp Hk. split.
  - intros q b Hq. destruct (decide (p = q)) as [<- | Hne].
    + rewrite lookup_insert_eq. exists a'. split; [done | congruence].
    + rewrite lookup_insert_ne by done. eauto.
  - intros q b Hq Hnone. destruct (decide (p = q)) as [<- | Hne]; [congruence |].
    rewrite lookup_insert_ne in Hq by done. congruence.
Qed.

Lemma extends_insert_new_key s p a' :
  s !! p = None → (∀ q a, s !! q = Some a → key a ≠ key a') →
  extends key s (<[p := a']> s).
Proof.
  intros Hp Hfresh. split.
  - intros q b Hq. destruct (decide (p = q)) as [<- | Hne]; [congruence |].
    rewrite lookup_insert_ne by done. eauto.
  - intros q b Hq Hnone. destruct (decide (p = q)) as [<- | Hne].
    + rewrite lookup_insert_eq in Hq. injection Hq as <-. split; [done |].
      intros q c Hq Hkc. destruct (decide (p = q)) as [| Hne]; [done |].
      rewrite lookup_insert_ne in Hq by done. destruct (Hfresh _ _ Hq Hkc).
    + rewrite lookup_insert_ne in Hq by done. congruence.
Qed.

Lemma between_start s f : between key same s f f.
Proof.
  split.
  - intros p. by destruct (f !! p).
  - intros p b c Hp. left. exists b. split; [done | reflexivity].
Qed.

Lemma between_end t f : between key same f t f → t = f.
Proof.
  intros [Hkeys Hcells]. apply map_eq. intros p. specialize (Hkeys p).
  destruct (t !! p) as [b |] eqn:Ht, (f !! p) as [x |] eqn:Hf; try done.
  f_equal. apply same_all; [done |]. intros c.
  destruct (Hcells p b c Ht) as [(x' & Hx' & Hsame) | (x' & Hx' & Hsame)];
    rewrite Hf in Hx'; by injection Hx' as <-.
Qed.

(** One write in each run, at the same primary key: every cell is either
    assigned the same value in both runs, or left as it was in both. *)
Lemma between_insert s t f p a' b b' :
  between key same s t f → t !! p = Some b → key b' = key b →
  (∀ c, same c b' a' ∨ (same c b' b ∧ ∀ a, s !! p = Some a → same c a' a)) →
  between key same (<[p := a']> s) (<[p := b']> t) f.
Proof.
  intros [Hkeys Hcells] Ht Hk Hwrite. split.
  - intros q. specialize (Hkeys q). destruct (decide (p = q)) as [<- | Hne].
    + rewrite lookup_insert_eq. rewrite Ht in Hkeys. destruct (f !! p); [congruence | done].
    + by rewrite lookup_insert_ne.
  - intros q x c Hq. destruct (decide (p = q)) as [<- | Hne].
    + rewrite lookup_insert_eq in Hq. injection Hq as <-. rewrite lookup_insert_eq.
      destruct (Hwrite c) as [Hassigned | [Hkept Hkept']]; [right; eauto |].
      destruct (Hcells p b c Ht) as [(y & Hy & Hsame) | (a & Ha & Hsame)].
      * left. exists y. split; [done |]. by etrans.
      * right. exists a'. split; [done |].
        etrans; [exact Hkept |]. etrans; [exact Hsame |]. symmetry. eauto.
    + rewrite lookup_insert_ne in Hq by done. rewrite lookup_insert_ne by done. eauto.
Qed.

Lemma extends_keys_unique s f :
  extends key s f →
  (∀ p q a b, s !! p = Some a → s !! q = Some b → key a = key b → p = q) →
  ∀ p q a b, f !! p = Some a → f !! q = Some b → key a = key b → p = q.
Proof.
  intros [Hold Hnew] Hunique p q a b Hp Hq Hk.
  destruct (s !! p) as [a0 |] eqn:Hsp.
  - destruct (s !! q) as [b0 |] eqn:Hsq.
    + destruct (Hold _ _ Hsp) as (a' & Ha' & Hka). destruct (Hold _ _ Hsq) as (b' & Hb' & Hkb).
      apply (Hunique p q a0 b0); try done. congruence.
    + destruct (Hnew _ _ Hq Hsq) as [_ Honly]. apply (Honly p a Hp Hk).
  - destruct (Hnew _ _ Hp Hsp) as [_ Honly]. symmetry. apply (Honly q b Hq). congruence.
Qed.

(** *** [update_or_create] in the two runs *)

Context (test : R → bool) (k : K) (create : R) (update : R → R).
Hypothesis test_key : ∀ r, test r = true ↔ key r = k.
Hypothesis key_create : key create = k.
Hypothesis key_update : ∀ r, key (update r) = key r.

Lemma test_false r : test r = false ↔ key r ≠ k.
Proof. rewrite <- test_key. by destruct (test r). Qed.

Lemma update_or_create_result s res s' :
  objects_update_or_create test create update s = (res, s') →
  match res with
  | Ok (p, a', _) =>
      s' = <[p := a']> s ∧ key a' = k
      ∧ ((a' = create ∧ s !! p = None ∧ ∀ q a, s !! q = Some a → key a ≠ k)
         ∨ (∃ a, s !! p = Some a ∧ a' = update a
                 ∧ ∀ q c, s !! q = Some c → key c = k → q = p))
  | Raise e =>
      s' = s ∧ e = MultipleObjectsReturned
      ∧ ∃ p q a b, p ≠ q ∧ s !! p = Some a ∧ key a = k ∧ s !! q = Some b ∧ key b = k
  end.
Proof.
  unfold objects_update_or_create.
  destruct (objects_get_cases test s)
    as [[-> Hnone] | [(p & a & -> & Hp & Ha & Honly) | (-> & p & q & a & b & Hne & Hp & Ha & Hq & Hb)]];
    intros [= <- <-].
  - split; [done |]. split; [done |]. left. split; [done |]. split; [apply next_pk_fresh |].
    intros q a Hq. apply test_false. eauto.
  - split; [done |]. split; [rewrite key_update; by apply test_key |]. right.
    exists a. split; [done |]. split; [done |]. intros q c Hq Hc. apply (Honly q c Hq).
    by apply test_key.
  - split; [done |]. split; [done |]. exists p, q, a, b.
    rewrite <- !test_key. done.
Qed.

Lemma update_or_create_extends s res s' :
  objects_update_or_create test create update s = (res, s') → extends key s s'.
Proof.
  intros Hrun. apply update_or_create_result in Hrun.
  destruct res as [[[p a'] created] | e].
  - destruct Hrun as (-> & Hk & [(-> & Hp & Hfresh) | (a & Hp & -> & _)]).
    + apply extends_insert_new_key; [done |]. intros q a Hq. rewrite key_create. eauto.
    + by apply extends_insert_same_key with a.
  - destruct Hrun as (-> & _). apply extends_refl.
Qed.

Lemma update_or_create_second_run s res s' t f :
  objects_update_or_create test create update s = (res, s') →
  extends key s' f → same_keys key t f →
  match res with
  | Ok (p, a', _) =>
      ∃ b, t !! p = Some b
           ∧ objects_update_or_create test create update t
             = (Ok (p, update b, false), <[p := update b]> t)
  | Raise e => objects_update_or_create test create update t = (Raise e, t)
  end.
Proof.
  intros Hrun [Hext1 Hext2] Hkeys. apply update_or_create_result in Hrun.
  destruct res as [[[p a'] created] | e].
  - destruct Hrun as (-> & Hk & Hcase).
    destruct (Hext1 p a') as (x & Hx & Hkx); [apply lookup_insert_eq |].
    pose proof (Hkeys p) as Hp. rewrite Hx in Hp.
    destruct (t !! p) as [b |] eqn:Hb; [| done]. exists b. split; [done |].
    unfold objects_update_or_create. rewrite (objects_get_only test t p b); [done | done | |].
    { apply test_key. congruence. }
    intros q c Hq Hc. apply test_key in Hc.
    pose proof (Hkeys q) as Hfq. rewrite Hq in Hfq.
    destruct (f !! q) as [y |] eqn:Hy; [| done].
    destruct (decide (q = p)) as [| Hne]; [done |]. exfalso.
    destruct (<[p:=a']> s !! q) as [z |] eqn:Hz.
    + destruct (Hext1 _ _ Hz) as (y' & Hy' & Hky').
      assert (y' = y) as -> by congruence.
      rewrite lookup_insert_ne in Hz by done.
      destruct Hcase as [(_ & _ & Hfresh) | (a & _ & _ & Honly)].
      * apply (Hfresh _ _ Hz). congruence.
      * apply Hne, (Honly _ _ Hz). congruence.
    + destruct (Hext2 _ _ Hy Hz) as [Hfresh _].
      apply (Hfresh p a'); [apply lookup_insert_eq | congruence].
  - destruct Hrun as (-> & -> & p & q & a & b & Hne & Hp & Ha & Hq & Hb).
    destruct (Hext1 _ _ Hp) as (x & Hx & Hkx). destruct (Hext1 _ _ Hq) as (y & Hy & Hky).
    pose proof (Hkeys p) as Hp'. pose proof (Hkeys q) as Hq'. rewrite Hx in Hp'. rewrite Hy in Hq'.
    destruct (t !! p) as [x' |] eqn:Hx'; [| done]. destruct (t !! q) as [y' |] eqn:Hy'; [| done].
    unfold objects_update_or_create.
    rewrite (objects_get_several test t p q x' y'); try done; apply test_key; congruence.
Qed.
End two_runs_facts.

(** *** The tables of the adapter *)

Lemma same_Stay_equiv (c : bool) : Equivalence (same_Stay c).
Proof.
  unfold same_Stay. split.
  - intros a. by destruct c.
  - intros a b. by destruct c.
  - intros a b x. destruct c; congruence.
Qed.

Lemma same_Stay_all (a b : Stay) :
  Stay_key a = Stay_key b → (∀ c, same_Stay c a b) → a = b.
Proof.
  intros Hk Hc. pose proof (Hc true) as Ht. pose proof (Hc false) as Hf.
  destruct a, b. unfold Stay_key in Hk. simpl in *. congruence.
Qed.

Lemma same_Guest_equiv (c : unit) : Equivalence (same_Guest c).
Proof.
  unfold same_Guest. split.
  - by intros a.
  - by intros a b.
  - intros a b x. congruence.
Qed.

Lemma same_Guest_all (a b : Guest) :
  phone a = phone b → (∀ c, same_Guest c a b) → a = b.
Proof.
  intros Hk Hc. specialize (Hc tt). unfold same_Guest in Hc.
  destruct a, b. simpl in *. congruence.
Qed.

Lemma set_Stay_objects_same (d : DB) : set_Stay_objects (Stay_objects d) d = d.
Proof. by destruct d. Qed.

Lemma set_Guest_objects_same (d : DB) : set_Guest_objects (Guest_objects d) d = d.
Proof. by destruct d. Qed.

Lemma DB_extends_refl (d : DB) : DB_extends d d.
Proof. split; [done |]. split; apply extends_refl. Qed.

Lemma DB_extends_trans (s m f : DB) : DB_extends s m → DB_extends m f → DB_extends s f.
Proof.
  intros (Hh & Hs & Hg) (Hh' & Hs' & Hg'). split; [congruence |].
  split; eapply extends_trans; eauto.
Qed.

Lemma DB_between_start (s f : DB) : DB_between s f f.
Proof.
  split; [done |].
  split; [apply (between_start _ _ same_Stay_equiv) | apply (between_start _ _ same_Guest_equiv)].
Qed.

Lemma DB_between_end (t f : DB) : DB_between f t f → t = f.
Proof.
  intros (Hh & Hs & Hg).
  apply (between_end _ _ same_Stay_all) in Hs.
  apply (between_end _ _ same_Guest_all) in Hg.
  destruct t, f. simpl in *. congruence.
Qed.

Lemma Stay_update_or_create_extends (h : positive) (rid gid ci co st : json)
    (s s1 : DB) (res : result (positive * Stay * bool)) (out : list string) :
  Stay_objects_update_or_create h rid gid ci co st s = (res, s1, out) → DB_extends s s1.
Proof.
  unfold Stay_objects_update_or_create.
  destruct (objects_update_or_create _ _ _ (Stay_objects s)) as [res' tbl] eqn:Hrun.
  intros [= _ <- _]. split; [done |]. split; [| apply extends_refl]. simpl.
  eapply (update_or_create_extends Stay_key _ (h, rid, gid)), Hrun.
  - intros r. apply Stay_test_key.
  - done.
  - by intros [].
Qed.

Lemma Guest_update_or_create_extends (ph nm : json)
    (s s1 : DB) (res : result (positive * Guest * bool)) (out : list string) :
  Guest_objects_update_or_create ph nm s = (res, s1, out) → DB_extends s s1.
Proof.
  unfold Guest_objects_update_or_create.
  destruct (objects_update_or_create _ _ _ (Guest_objects s)) as [res' tbl] eqn:Hrun.
  intros [= _ <- _]. split; [done |]. split; [apply extends_refl |]. simpl.
  eapply (update_or_create_extends phone _ ph), Hrun.
  - intros r. apply json_eqb_eq.
  - done.
  - by intros [].
Qed.

Lemma Stay_update_or_create_two_runs (h : positive) (rid gid ci co st : json)
    (s s1 t f : DB) (res : result (positive * Stay * bool)) (out : list string) :
  Stay_objects_update_or_create h rid gid ci co st s = (res, s1, out) →
  DB_extends s1 f → DB_between s t f →
  match res with
  | Ok (p, a, _) =>
      ∃ b created t1,
        Stay_objects_update_or_create h rid gid ci co st t = (Ok (p, b, created), t1, out)
        ∧ Stay_objects s1 !! p = Some a ∧ Stay_objects t1 !! p = Some b
        ∧ Stay_key b = Stay_key a ∧ same_Stay true b a
        ∧ DB_between s1 t1 f
  | Raise e =>
      s1 = s ∧ Stay_objects_update_or_create h rid gid ci co st t = (Raise e, t, out)
  end.
Proof.
  unfold Stay_objects_update_or_create.
  destruct (objects_update_or_create _ _ _ (Stay_objects s)) as [res' tbl] eqn:Hrun.
  intros [= <- <- <-] (_ & Hext & _) (Hh & Hs & Hg). simpl in Hext.
  pose proof Hrun as Hres.
  apply (update_or_create_result Stay_key _ (h, rid, gid)) in Hres;
    [| intros r; apply Stay_test_key | done | by intros []].
  pose proof Hrun as Hsecond.
  apply (update_or_create_second_run Stay_key _ (h, rid, gid)) with (t := Stay_objects t)
    (f := Stay_objects f) in Hsecond;
    [| intros r; apply Stay_test_key | done | by intros [] | done | apply Hs].
  destruct res' as [[[p a] created] | e].
  - destruct Hres as (-> & Hk & Hcase). destruct Hsecond as (b0 & Hb0 & ->).
    eexists _, _, _. split; [reflexivity |]. simpl. rewrite !lookup_insert_eq.
    split; [done |]. split; [done |].
    assert (Stay_key b0 = Stay_key a) as Hkb.
    { destruct Hext as [Hext1 _]. destruct (Hext1 p a) as (x & Hx & Hkx); [apply lookup_insert_eq |].
      pose proof (proj1 Hs p) as Hp. rewrite Hb0, Hx in Hp. congruence. }
    split; [done |].
    assert (same_Stay true
              {| hotel := hotel b0; pms_reservation_id := pms_reservation_id b0;
                 pms_guest_id := pms_guest_id b0; checkin := ci; checkout := co;
                 status := st; guest := guest b0 |} a) as Hassigned.
    { destruct Hcase as [(-> & _) | (a0 & _ & -> & _)]; done. }
    split; [done |]. split; [done |]. split; [| done].
    apply (between_insert _ _ same_Stay_equiv) with b0; try done.
    intros [|]; [by left |]. right. split; [done |].
    intros a0 Ha0. destruct Hcase as [(_ & Hnone & _) | (a1 & Ha1 & -> & _)]; [congruence |].
    assert (a1 = a0) as -> by congruence. done.
  - destruct Hres as (-> & _). rewrite Hsecond. split; [apply set_Stay_objects_same |].
    by rewrite set_Stay_objects_same.
Qed.

Lemma Guest_update_or_create_two_runs (ph nm : json)
    (s s1 t f : DB) (res : result (positive * Guest * bool)) (out : list string) :
  Guest_objects_update_or_create ph nm s = (res, s1, out) →
  DB_extends s1 f → DB_between s t f →
  Stay_objects s1 = Stay_objects s
  ∧ match res with
    | Ok (p, a, _) =>
        ∃ b created t1,
          Guest_objects_update_or_create ph nm t = (Ok (p, b, created), t1, out)
          ∧ Stay_objects t1 = Stay_objects t
          ∧ DB_between s1 t1 f
    | Raise e =>
        s1 = s ∧ Guest_objects_update_or_create ph nm t = (Raise e, t, out)
    end.
Proof.
  unfold Guest_objects_update_or_create.
  destruct (objects_update_or_create _ _ _ (Guest_objects s)) as [res' tbl] eqn:Hrun.
  intros [= <- <- <-] (_ & _ & Hext) (Hh & Hs & Hg). simpl in Hext. split; [done |].
  pose proof Hrun as Hres.
  apply (update_or_create_result phone _ ph) in Hres;
    [| intros r; apply json_eqb_eq | done | by intros []].
  pose proof Hrun as Hsecond.
  apply (update_or_create_second_run phone _ ph) with (t := Guest_objects t)
    (f := Guest_objects f) in Hsecond;
    [| intros r; apply json_eqb_eq | done | by intros [] | done | apply Hg].
  destruct res' as [[[p a] created] | e].
  - destruct Hres as (-> & Hk & Hcase). destruct Hsecond as (b0 & Hb0 & ->).
    eexists _, _, _. split; [reflexivity |]. split; [done |].
    split; [done |]. split; [done |]. simpl.
    apply (between_insert _ _ same_Guest_equiv) with b0; try done.
    intros []. left. destruct Hcase as [(-> & _) | (a0 & _ & -> & _)]; done.
  - destruct Hres as (-> & _). rewrite Hsecond. split; [apply set_Guest_objects_same |].
    by rewrite set_Guest_objects_same.
Qed.

Lemma Stay_update_or_create_returns (h : positive) (rid gid ci co st : json)
    (s s1 : DB) (p : positive) (a : Stay) (created : bool) (out : list string) :
  Stay_objects_update_or_create h rid gid ci co st s = (Ok (p, a, created), s1, out) →
  Stay_objects s1 !! p = Some a.
Proof.
  unfold Stay_objects_update_or_create.
  destruct (objects_update_or_create _ _ _ (Stay_objects s)) as [res' tbl] eqn:Hrun.
  intros [= -> <- _].
  apply (update_or_create_result Stay_key _ (h, rid, gid)) in Hrun;
    [| intros r; apply Stay_test_key | done | by intros []].
  destruct Hrun as (-> & _). apply lookup_insert_eq.
Qed.

Lemma Stay_save_extends (p : positive) (a a' : Stay) (s : DB) :
  Stay_objects s !! p = Some a → Stay_key a' = Stay_key a →
  DB_extends s (set_Stay_objects (<[p := a']> (Stay_objects s)) s).
Proof.
  intros Hp Hk. split; [done |]. split; [| apply extends_refl].
  by apply extends_insert_same_key with a.
Qed.

Lemma Stay_save_two_runs (p g : positive) (a b : Stay) (s t f : DB) :
  Stay_objects t !! p = Some b → Stay_key b = Stay_key a → same_Stay true b a →
  DB_between s t f →
  DB_between (set_Stay_objects (<[p := set_guest a g]> (Stay_objects s)) s)
    (set_Stay_objects (<[p := set_guest b g]> (Stay_objects t)) t) f.
Proof.
  intros Hb Hk Hsame (Hh & Hs & Hg). split; [done |]. split; [| done]. simpl.
  apply (between_insert _ _ same_Stay_equiv) with b; try done.
  intros [|]; left; [| done]. unfold same_Stay in *. simpl. done.
Qed.

Section idempotence.
Variable json_loads : string → loads_result.
Variable get_reservation_details : json → result string.
Variable get_guest_details : json → result string.
Context {PhoneNumber : Type}.
Variable phonenumbers_parse : json → result PhoneNumber.
Variable phonenumbers_is_valid_number : PhoneNumber → bool.

Local Abbreviation validate :=
  (validate_phone_number phonenumbers_parse phonenumbers_is_valid_number).
Local Abbreviation on_event :=
  (handle_event json_loads get_reservation_details get_guest_details
     phonenumbers_parse phonenumbers_is_valid_number).
Local Abbreviation on_webhook :=
  (handle_webhook json_loads get_reservation_details get_guest_details
     phonenumbers_parse phonenumbers_is_valid_number).

(** What [handle_event] does once the Stay is stored. *)
Local Abbreviation link_guest guest_details stay_pk stay :=
  (phone ← eval (subscript guest_details "Phone");
   _ ← eval (validate phone);
   nm ← eval (subscript guest_details "Name");
   '(guest_pk, _, _) ← Guest_objects_update_or_create phone nm;
   Stay_save (stay_pk, set_guest stay guest_pk)).

Ltac eval_in H :=
  rewrite run_eval_bind in H;
  match type of H with
  | match ?x with _ => _ end = _ => destruct x as [? | ?] eqn:?
  end.

Lemma link_guest_extends (guest_details : json) (p : positive) (a : Stay)
    (s s' : DB) (r : result unit) (out : list string) :
  link_guest guest_details p a s = (r, s', out) →
  Stay_objects s !! p = Some a → DB_extends s s'.
Proof.
  intros Hrun Hp.
  eval_in Hrun; [| injection Hrun as <- <- <-; apply DB_extends_refl].
  eval_in Hrun; [| injection Hrun as <- <- <-; apply DB_extends_refl].
  eval_in Hrun; [| injection Hrun as <- <- <-; apply DB_extends_refl].
  rewrite run_bind in Hrun.
  match type of Hrun with
  | context [Guest_objects_update_or_create ?ph ?nm s] =>
      destruct (Guest_objects_update_or_create ph nm s) as [[res s1] out1] eqn:Hguest
  end.
  pose proof (Guest_update_or_create_extends _ _ _ _ _ _ Hguest) as Hext.
  destruct res as [[[gp g] created] | e]; [| by injection Hrun as <- <- <-].
  unfold Stay_save in Hrun. simpl in Hrun. injection Hrun as <- <- <-.
  eapply DB_extends_trans; [exact Hext |].
  apply Stay_save_extends with a; [| done].
  unfold Guest_objects_update_or_create in Hguest.
  destruct (objects_update_or_create _ _ _ (Guest_objects s)) in Hguest.
  injection Hguest as _ <- _. done.
Qed.

Lemma link_guest_two_runs (guest_details : json) (p : positive) (a b : Stay)
    (s s' t t' f : DB) (r r' : result unit) (out out' : list string) :
  link_guest guest_details p a s = (r, s', out) →
  link_guest guest_details p b t = (r', t', out') →
  Stay_objects s !! p = Some a → Stay_objects t !! p = Some b →
  Stay_key b = Stay_key a → same_Stay true b a →
  DB_extends s' f → DB_between s t f →
  r' = r ∧ out' = out ∧ DB_between s' t' f.
Proof.
  intros Hrun Hrun' Hp Hp' Hk Hsame Hext Hbetween.
  pose proof (link_guest_extends _ _ _ _ _ _ _ Hrun Hp) as Hlater.
  rewrite run_eval_bind in Hrun, Hrun'.
  destruct (subscript guest_details "Phone") as [ph | e];
    [| by injection Hrun as <- <- <-; injection Hrun' as <- <- <-].
  rewrite run_eval_bind in Hrun, Hrun'.
  destruct (validate ph) as [valid | e];
    [| by injection Hrun as <- <- <-; injection Hrun' as <- <- <-].
  rewrite run_eval_bind in Hrun, Hrun'.
  destruct (subscript guest_details "Name") as [nm | e];
    [| by injection Hrun as <- <- <-; injection Hrun' as <- <- <-].
  rewrite run_bind in Hrun, Hrun'.
  destruct (Guest_objects_update_or_create ph nm s) as [[res s1] out1] eqn:Hguest.
  assert (DB_extends s1 f) as Hext1.
  { destruct res as [[[gp g] created] | e]; [| by injection Hrun as _ <- _].
    unfold Stay_save in Hrun. simpl in Hrun. injection Hrun as _ <- _.
    eapply DB_extends_trans; [| exact Hext].
    apply Stay_save_extends with a; [| done].
    unfold Guest_objects_update_or_create in Hguest.
    destruct (objects_update_or_create _ _ _ (Guest_objects s)) in Hguest.
    injection Hguest as _ <- _. done. }
  destruct (Guest_update_or_create_two_runs _ _ _ _ _ _ _ _ Hguest Hext1 Hbetween)
    as [Hstays Hsecond].
  destruct res as [[[gp g] created] | e].
  - destruct Hsecond as (g' & created' & t1 & Hguest' & Hstays' & Hbetween1).
    rewrite Hguest' in Hrun'. unfold Stay_save in Hrun, Hrun'. simpl in Hrun, Hrun'.
    injection Hrun as <- <- <-. injection Hrun' as <- <- <-.
    split; [done |]. split; [done |].
    apply Stay_save_two_runs; try done. by rewrite Hstays'.
  - destruct Hsecond as [-> Hguest']. rewrite Hguest' in Hrun'.
    injection Hrun as <- <- <-. by injection Hrun' as <- <- <-.
Qed.

Lemma handle_event_extends (hotel_row : positive * Hotel) (event : json)
    (s s' : DB) (r : result unit) (out : list string) :
  on_event hotel_row event s = (r, s', out) → DB_extends s s'.
Proof.
  unfold handle_event. intros Hrun.
  do 10 (eval_in Hrun; [| injection Hrun as <- <- <-; apply DB_extends_refl]).
  rewrite run_bind in Hrun.
  match type of Hrun with
  | context [Stay_objects_update_or_create ?h ?rid ?gid ?ci ?co ?st s] =>
      destruct (Stay_objects_update_or_create h rid gid ci co st s)
        as [[res s1] out1] eqn:Hstay
  end.
  pose proof (Stay_update_or_create_extends _ _ _ _ _ _ _ _ _ _ Hstay) as Hext.
  destruct res as [[[stay_pk stay] created] | err]; [| by injection Hrun as <- <- <-].
  apply Stay_update_or_create_returns in Hstay.
  match type of Hrun with
  | match ?run with _ => _ end = _ => destruct run as [[r1 s2] out2] eqn:Hlink
  end.
  injection Hrun as <- <- <-. eapply DB_extends_trans; [exact Hext |].
  by eapply link_guest_extends.
Qed.

Lemma handle_event_two_runs (hotel_row : positive * Hotel) (event : json)
    (s s' t t' f : DB) (r r' : result unit) (out out' : list string) :
  on_event hotel_row event s = (r, s', out) →
  on_event hotel_row event t = (r', t', out') →
  DB_extends s' f → DB_between s t f →
  r' = r ∧ out' = out ∧ DB_between s' t' f.
Proof.
  unfold handle_event. intros Hrun Hrun' Hext Hbetween.
  do 10 (rewrite run_eval_bind in Hrun, Hrun';
         match type of Hrun with
         | match ?x with _ => _ end = _ => destruct x as [? | ?] eqn:?
         end;
         [| by injection Hrun as <- <- <-; injection Hrun' as <- <- <-]).
  rewrite run_bind in Hrun, Hrun'.
  match type of Hrun with
  | context [Stay_objects_update_or_create ?h ?rid ?gid ?ci ?co ?st s] =>
      destruct (Stay_objects_update_or_create h rid gid ci co st s)
        as [[res s1] out1] eqn:Hstay
  end.
  destruct res as [[[stay_pk stay] created] | err].
  - pose proof (Stay_update_or_create_returns _ _ _ _ _ _ _ _ _ _ _ _ Hstay) as Hp.
    match type of Hrun with
    | match ?run with _ => _ end = _ => destruct run as [[r1 s2] out2] eqn:Hlink
    end.
    injection Hrun as <- <- <-.
    assert (DB_extends s1 f) as Hext1.
    { eapply DB_extends_trans; [| exact Hext]. by eapply link_guest_extends. }
    pose proof (Stay_update_or_create_two_runs _ _ _ _ _ _ _ _ _ _ _ _ Hstay Hext1 Hbetween)
      as (stay' & created' & t1 & Hstay' & _ & Hp' & Hk & Hsame & Hbetween1).
    rewrite Hstay' in Hrun'.
    match type of Hrun' with
    | match ?run with _ => _ end = _ => destruct run as [[r2 t2] out3] eqn:Hlink'
    end.
    injection Hrun' as <- <- <-.
    destruct (link_guest_two_runs _ _ _ _ _ _ _ _ _ _ _ _ _ Hlink Hlink' Hp Hp' Hk Hsame
                Hext Hbetween1) as (-> & -> & Hbetween2).
    done.
  - injection Hrun as <- <- <-.
    pose proof (Stay_update_or_create_two_runs _ _ _ _ _ _ _ _ _ _ _ _ Hstay Hext Hbetween)
      as [-> Hstay'].
    rewrite Hstay' in Hrun'. by injection Hrun' as <- <- <-.
Qed.

Lemma for_each_extends (hotel_row : positive * Hotel) (events : list json)
    (s s' : DB) (r : result unit) (out : list string) :
  for_each events (on_event hotel_row) s = (r, s', out) → DB_extends s s'.
Proof.
  revert s out. induction events as [| event events IH]; intros s out Hrun.
  - injection Hrun as <- <- <-. apply DB_extends_refl.
  - simpl in Hrun. rewrite run_bind in Hrun.
    destruct (on_event hotel_row event s) as [[[[] | e] s1] out1] eqn:Hevent.
    + destruct (for_each events (on_event hotel_row) s1) as [[r2 s2] out2] eqn:Hrest.
      injection Hrun as <- <- <-.
      eapply DB_extends_trans; [by eapply handle_event_extends | by eapply IH].
    + injection Hrun as <- <- <-. by eapply handle_event_extends.
Qed.

(** The loop, run again on the database [f] the first run ended with: every
    row it looks for is there exactly once, so it only assigns the values
    that [f] already holds, and stops where the first run stopped. *)
Lemma for_each_two_runs (hotel_row : positive * Hotel) (events : list json)
    (s t f : DB) (r : result unit) (out : list string) :
  for_each events (on_event hotel_row) s = (r, f, out) →
  DB_between s t f →
  for_each events (on_event hotel_row) t = (r, f, out).
Proof.
  revert s t out. induction events as [| event events IH]; intros s t out Hrun Hbetween.
  - injection Hrun as <- <- <-. simpl. by rewrite (DB_between_end _ _ Hbetween).
  - simpl in *. rewrite run_bind in Hrun. rewrite run_bind.
    destruct (on_event hotel_row event s) as [[r1 s1] out1] eqn:Hevent.
    destruct (on_event hotel_row event t) as [[r2 t1] out2] eqn:Hevent'.
    destruct r1 as [[] | e].
    + destruct (for_each events (on_event hotel_row) s1) as [[r3 s3] out3] eqn:Hrest.
      injection Hrun as <- <- <-.
      pose proof (for_each_extends _ _ _ _ _ _ Hrest) as Hext.
      destruct (handle_event_two_runs _ _ _ _ _ _ _ _ _ _ _ Hevent Hevent' Hext Hbetween)
        as (-> & -> & Hbetween1).
      by rewrite (IH _ _ _ Hrest Hbetween1).
    + injection Hrun as <- <- <-.
      destruct (handle_event_two_runs _ _ _ _ _ _ _ _ _ _ _ Hevent Hevent'
                  (DB_extends_refl _) Hbetween) as (-> & -> & Hbetween1).
      by rewrite (DB_between_end _ _ Hbetween1).
Qed.

(** C2. Calling [handle_webhook] a second time with the same payload, on the
    database the first call left and with the service answering as before,
    gives the same result and the same output and leaves the database as the
    first call left it: no Stay and no Guest is added, and every row keeps the
    values the first call gave it. *)
Theorem handle_webhook_idempotent (webhook_data : json) (d : DB) :
  let first := on_webhook webhook_data d in
  on_webhook webhook_data first.1.2 = first.
Proof.
  unfold handle_webhook. simpl. rewrite !run_eval_bind.
  destruct (subscript webhook_data "HotelId") as [id_hotel | e]; [| done].
  rewrite !run_bind. unfold try_except_APIError.
  match goal with
  | |- context [match ?body d with _ => _ end] =>
      destruct (body d) as [[r f] out] eqn:Hbody;
      assert (body f = (r, f, out)) as Hbody'
  end.
  { rewrite run_bind in Hbody. rewrite run_bind. unfold Hotel_objects_get in *.
    destruct (objects_get _ (Hotel_objects d)) as [hotel_row | e] eqn:Hget;
      [| injection Hbody as <- <- <-; by rewrite Hget].
    rewrite run_eval_bind in Hbody.
    destruct (subscript webhook_data "Events") as [events | e] eqn:Hevents;
      [| injection Hbody as <- <- <-; by rewrite Hget, run_eval_bind].
    rewrite run_eval_bind in Hbody.
    destruct (iterate events) as [items | e] eqn:Hitems;
      [| injection Hbody as <- <- <-; by rewrite Hget, !run_eval_bind, Hitems].
    destruct (for_each items (on_event hotel_row) d) as [[r1 s1] out1] eqn:Hloop.
    injection Hbody as <- <- <-.
    pose proof (for_each_extends _ _ _ _ _ _ Hloop) as [Hhotels _].
    rewrite <- Hhotels, Hget, !run_eval_bind, Hitems.
    by rewrite (for_each_two_runs _ _ _ _ _ _ _ Hloop (DB_between_start _ _)). }
  destruct r as [[] | e].
  - simpl. by rewrite Hbody'.
  - destruct e; simpl; by rewrite Hbody'.
Qed.

Lemma handle_webhook_extends (webhook_data : json) (d d' : DB)
    (r : result bool) (out : list string) :
  on_webhook webhook_data d = (r, d', out) → DB_extends d d'.
Proof.
  unfold handle_webhook. rewrite run_eval_bind.
  destruct (subscript webhook_data "HotelId") as [id_hotel | e];
    [| intros [= _ <- _]; apply DB_extends_refl].
  rewrite run_bind. unfold try_except_APIError.
  match goal with
  | |- context [match ?body d with _ => _ end] =>
      destruct (body d) as [[r1 d1] out1] eqn:Hbody; assert (DB_extends d d1) as Hext
  end.
  { rewrite run_bind in Hbody. unfold Hotel_objects_get in Hbody.
    destruct (objects_get _ (Hotel_objects d)) as [hotel_row | e];
      [| injection Hbody as _ <- _; apply DB_extends_refl].
    rewrite run_eval_bind in Hbody.
    destruct (subscript webhook_data "Events") as [events | e];
      [| injection Hbody as _ <- _; apply DB_extends_refl].
    rewrite run_eval_bind in Hbody.
    destruct (iterate events) as [items | e];
      [| injection Hbody as _ <- _; apply DB_extends_refl].
    destruct (for_each items (on_event hotel_row) d) as [[r2 d2] out2] eqn:Hloop.
    injection Hbody as _ <- _. by eapply for_each_extends. }
  destruct r1 as [[] | []]; simpl; by intros [= _ <- _].
Qed.

(** X17. Unique keys are kept: a database reached from one with unique keys
    by handling webhooks has unique keys, however each call ended. *)
Lemma handle_webhook_keeps_unique_keys (webhook_data : json) (d d' : DB)
    (r : result bool) (out : list string) :
  on_webhook webhook_data d = (r, d', out) → unique_keys d → unique_keys d'.
Proof.
  intros Hrun [Hstays Hguests]. apply handle_webhook_extends in Hrun as (_ & Hs & Hg).
  split.
  - by apply (extends_keys_unique _ _ _ Hs).
  - by apply (extends_keys_unique _ _ _ Hg).
Qed.
End idempotence.

(** The sample hotel: a payload with a good event, a refused one and one that
    is never reached, handled twice. *)
Example handle_webhook_twice :
  let webhook_data :=
    Sample.webhook [Sample.event "R4"; Sample.event "R1"; Sample.event "R2"; JObj []] in
  let first := Sample.handle_webhook webhook_data Sample.db in
  first.1.1 = Ok true
  ∧ size (Stay_objects first.1.2) = 2 ∧ size (Guest_objects first.1.2) = 2
  ∧ Sample.handle_webhook webhook_data first.1.2 = first.
Proof. vm_compute. done. Qed.

(** * More properties of the code *)

(** ** More on the registry *)

Lemma ascii_upper_M_lower_m (c : ascii) :
  ascii_upper c = "M"%char ↔ ascii_lower c = "m"%char.
Proof.
  destruct c as [[] [] [] [] [] [] [] []]; vm_compute; split; congruence.
Qed.

Lemma capitalize_Mews (name : string) : capitalize name = "Mews" ↔ lower name = "mews".
Proof.
  destruct name as [| c rest]; simpl; [split; discriminate |].
  split; intros [= Hc Hrest]; f_equal; try done; by apply ascii_upper_M_lower_m.
Qed.

(** X1. The registry ignores the case of the name: [get_pms] returns an
    instance of PMS_Mews for exactly the names that spell "mews" in any mix of
    upper and lower case, and [False] for every other name. *)
Theorem get_pms_ignores_case (name : string) :
  get_pms name
  = Ok (if bool_decide (lower name = "mews") then Instance "PMS_Mews" else PyFalse).
Proof.
  unfold get_pms. case_bool_decide as Hin.
  - destruct (instantiate_PMS_subclass _ Hin) as [Heq Hinst]. rewrite Hinst.
    apply capitalize_Mews in Heq. by rewrite bool_decide_eq_true_2.
  - rewrite bool_decide_eq_false_2; [done |]. intros Hlower. apply Hin.
    apply capitalize_Mews in Hlower. rewrite Hlower. vm_compute.
    do 5 right. left.
Qed.

(** X2. The [name] of an adapter that [get_pms] returns is the capitalized
    form of the name it was asked for. *)
Theorem get_pms_name_round_trip (name : string) (adapter : pyobj) :
  get_pms name = Ok adapter → truthy adapter = true →
  PMS_name adapter = Ok (capitalize name).
Proof.
  unfold get_pms. case_bool_decide as Hin; [| by intros [= <-]].
  destruct (instantiate_PMS_subclass _ Hin) as [Heq ->]. intros [= <-] _.
  by rewrite Heq.
Qed.

Lemma get_pms_name_round_trip_witness :
  PMS_name (Instance "PMS_Mews") = Ok (capitalize "mEWS").
Proof.
  apply (get_pms_name_round_trip "mEWS" (Instance "PMS_Mews")); reflexivity.
Defined.

(** ** More on breakfast and validation *)

Lemma subscript_raises (v : json) (key : string) (e : exn) :
  subscript v key = Raise e → e = KeyError key ∨ e = TypeError.
Proof.
  unfold subscript. destruct v; try (intros [= <-]; by right).
  destruct (assoc key fields); [done |]. intros [= <-]. by left.
Qed.

Section more_adapter_facts.
Variable json_loads : string → loads_result.
Variable get_reservation_details : json → result string.
Context {PhoneNumber : Type}.
Variable phonenumbers_parse : json → result PhoneNumber.
Variable phonenumbers_is_valid_number : PhoneNumber → bool.

Local Abbreviation validate :=
  (validate_phone_number phonenumbers_parse phonenumbers_is_valid_number).
Local Abbreviation breakfast := (stay_has_breakfast json_loads get_reservation_details).

(** X3. [stay_has_breakfast] only reads: it leaves the database as it is, and
    what it returns and prints depends on the stay through its PMS reservation
    id alone, not on the other fields nor on what is stored. *)
Theorem stay_has_breakfast_reads_only (stay stay' : Stay) (d d' : DB) :
  pms_reservation_id stay = pms_reservation_id stay' →
  (breakfast stay d).1.2 = d
  ∧ (breakfast stay d).1.1 = (breakfast stay' d').1.1
  ∧ (breakfast stay d).2 = (breakfast stay' d').2.
Proof.
  intros Hid. unfold stay_has_breakfast, try_except_APIError. rewrite <- Hid.
  rewrite !run_eval_bind.
  destruct (get_reservation_details (pms_reservation_id stay)) as [payload | e].
  - rewrite !run_eval_bind.
    destruct (clean_webhook_payload json_loads payload) as [res_details | e].
    + unfold eval. by destruct (subscript res_details "BreakfastIncluded") as [v | []].
    + by destruct e.
  - by destruct e.
Qed.

(** X4. [stay_has_breakfast] swallows APIError only.  An answer that is not
    JSON raises ValueError, an answer without "BreakfastIncluded" raises what
    the subscript raises, any other exception of the service is passed on; a
    field that is not a bool is returned as it is.  No outcome is a raised
    APIError. *)
Theorem stay_has_breakfast_other_outcomes (stay : Stay) (d : DB) :
  (∀ payload msg,
     get_reservation_details (pms_reservation_id stay) = Ok payload →
     json_loads payload = JSONDecodeError msg →
     breakfast stay d = (Raise (ValueError ("Error decoding at " +:+ msg)), d, []))
  ∧ (∀ payload res_details e,
       get_reservation_details (pms_reservation_id stay) = Ok payload →
       json_loads payload = Decoded res_details →
       subscript res_details "BreakfastIncluded" = Raise e →
       breakfast stay d = (Raise e, d, []))
  ∧ (∀ payload res_details v,
       get_reservation_details (pms_reservation_id stay) = Ok payload →
       json_loads payload = Decoded res_details →
       subscript res_details "BreakfastIncluded" = Ok v →
       breakfast stay d = (Ok v, d, []))
  ∧ (∀ e, get_reservation_details (pms_reservation_id stay) = Raise e →
          (∀ msg, e ≠ APIError msg) → breakfast stay d = (Raise e, d, []))
  ∧ ∀ msg, (breakfast stay d).1.1 ≠ Raise (APIError msg).
Proof.
  unfold stay_has_breakfast, try_except_APIError, clean_webhook_payload.
  split; [| split; [| split; [| split]]].
  - intros payload msg Hcall Hloads. by rewrite Hcall, !run_eval_bind, Hloads.
  - intros payload res_details e Hcall Hloads Hfield.
    rewrite Hcall, !run_eval_bind, Hloads. unfold eval. rewrite Hfield.
    apply subscript_raises in Hfield as [-> | ->]; done.
  - intros payload res_details v Hcall Hloads Hfield.
    by rewrite Hcall, !run_eval_bind, Hloads, Hfield.
  - intros e Hcall Hother. rewrite Hcall, run_eval_bind.
    destruct e; try done. by destruct (Hother msg).
  - intros msg. rewrite run_eval_bind.
    destruct (get_reservation_details (pms_reservation_id stay)) as [payload | e].
    + rewrite run_eval_bind. destruct (json_loads payload) as [res_details | e]; [| done].
      unfold eval. destruct (subscript res_details "BreakfastIncluded") as [v | e] eqn:Hfield;
        [done |].
      apply subscript_raises in Hfield as [-> | ->]; done.
    + by destruct e.
Qed.

(** X5. [validate_phone_number] says True only of a number that the package
    parsed and judged valid, and it raises exactly when parsing raises
    something other than NumberParseException. *)
Theorem validate_phone_number_outcomes (phone : json) :
  (validate phone = Ok true
   ↔ ∃ parsed, phonenumbers_parse phone = Ok parsed
               ∧ phonenumbers_is_valid_number parsed = true)
  ∧ ∀ e, validate phone = Raise e
         ↔ phonenumbers_parse phone = Raise e ∧ ∀ msg, e ≠ NumberParseException msg.
Proof.
  unfold validate_phone_number. split.
  - destruct (phonenumbers_parse phone) as [parsed | e].
    + split; [intros [= Hvalid]; eauto | intros (parsed' & [= <-] & ->); done].
    + split; [by destruct e | by intros (parsed & Hparsed & _)].
  - intros e. destruct (phonenumbers_parse phone) as [parsed | e'].
    + split; [done | by intros [? _]].
    + split.
      * destruct e'; intros [= <-]; split; done.
      * intros [[= ->] Hother]. destruct e; try done. by destruct (Hother msg).
Qed.
End more_adapter_facts.

(** ** What a webhook prints *)

Lemma silent_eval {A} (r : result A) : silent (eval r).
Proof. by intros d. Qed.

Lemma silent_bind {A B} (m : M A) (k : A → M B) :
  silent m → (∀ a, silent (k a)) → silent (m ≫= k).
Proof.
  intros Hm Hk d. rewrite run_bind. specialize (Hm d).
  destruct (m d) as [[[a | e] d1] out1]; simpl in *; [| done].
  specialize (Hk a d1). destruct (k a d1) as [[r d2] out2]. simpl in *. by subst.
Qed.

Lemma silent_for_each {A} (xs : list A) (body : A → M unit) :
  (∀ x, silent (body x)) → silent (for_each xs body).
Proof.
  intros Hbody. induction xs as [| x xs IH]; [by intros d |].
  simpl. apply silent_bind; [apply Hbody | by intros _].
Qed.

Lemma silent_Stay_objects_update_or_create (h : positive) (rid gid ci co st : json) :
  silent (Stay_objects_update_or_create h rid gid ci co st).
Proof.
  intros d. unfold Stay_objects_update_or_create.
  by destruct (objects_update_or_create _ _ _ (Stay_objects d)).
Qed.

Lemma silent_Guest_objects_update_or_create (ph nm : json) :
  silent (Guest_objects_update_or_create ph nm).
Proof.
  intros d. unfold Guest_objects_update_or_create.
  by destruct (objects_update_or_create _ _ _ (Guest_objects d)).
Qed.

(** ** What one event writes *)

Lemma Stay_update_or_create_writes (h : positive) (rid gid ci co st : json)
    (s s1 : DB) (res : result (positive * Stay * bool)) (out : list string) :
  Stay_objects_update_or_create h rid gid ci co st s = (res, s1, out) →
  Hotel_objects s1 = Hotel_objects s ∧ Guest_objects s1 = Guest_objects s
  ∧ match res with
    | Ok (p, a, _) =>
        Stay_objects s1 = <[p := a]> (Stay_objects s)
        ∧ Stay_key a = (h, rid, gid)
        ∧ (checkin a, checkout a, status a) = (ci, co, st)
        ∧ match Stay_objects s !! p with
          | Some a0 => Stay_key a0 = Stay_key a ∧ guest a = guest a0
          | None => guest a = None
          end
    | Raise e => s1 = s ∧ e = MultipleObjectsReturned
    end.
Proof.
  unfold Stay_objects_update_or_create.
  destruct (objects_update_or_create _ _ _ (Stay_objects s)) as [res' tbl] eqn:Hrun.
  intros [= <- <- _]. split; [done |]. split; [done |].
  apply (update_or_create_result Stay_key _ (h, rid, gid)) in Hrun;
    [| intros r; apply Stay_test_key | done | by intros []].
  destruct res' as [[[p a] created] | e].
  - destruct Hrun as (-> & Hk & [(-> & Hnone & _) | (a0 & Ha0 & -> & _)]).
    + simpl. by rewrite Hnone.
    + simpl. rewrite Ha0. done.
  - destruct Hrun as (-> & -> & _). by rewrite set_Stay_objects_same.
Qed.

Lemma Guest_update_or_create_writes (ph nm : json)
    (s s1 : DB) (res : result (positive * Guest * bool)) (out : list string) :
  Guest_objects_update_or_create ph nm s = (res, s1, out) →
  Hotel_objects s1 = Hotel_objects s ∧ Stay_objects s1 = Stay_objects s
  ∧ match res with
    | Ok (p, g, _) =>
        Guest_objects s1 = <[p := g]> (Guest_objects s)
        ∧ g = {| phone := ph; name := nm |}
        ∧ ∀ a0, Guest_objects s !! p = Some a0 → phone a0 = ph
    | Raise e => s1 = s ∧ e = MultipleObjectsReturned
    end.
Proof.
  unfold Guest_objects_update_or_create.
  destruct (objects_update_or_create _ _ _ (Guest_objects s)) as [res' tbl] eqn:Hrun.
  intros [= <- <- _]. split; [done |]. split; [done |].
  apply (update_or_create_result phone _ ph) in Hrun;
    [| intros r; apply json_eqb_eq | done | by intros []].
  destruct res' as [[[p g] created] | e].
  - destruct Hrun as (-> & Hk & [(-> & Hnone & _) | (a0 & Ha0 & -> & Honly)]).
    + split; [done |]. split; [done |]. intros a0. by rewrite Hnone.
    + simpl in Hk. split; [done |]. split; [by rewrite Hk |].
      intros a1. rewrite Ha0. by intros [= <-].
  - destruct Hrun as (-> & -> & _). by rewrite set_Guest_objects_same.
Qed.

Lemma Stay_update_or_create_exact (h : positive) (rid gid ci co st : json) (s : DB) :
  (∀ p q a b, Stay_objects s !! p = Some a → Stay_objects s !! q = Some b →
              Stay_key a = Stay_key b → p = q) →
  ∃ p a created,
    Stay_objects_update_or_create h rid gid ci co st s
    = (Ok (p, a, created), set_Stay_objects (<[p := a]> (Stay_objects s)) s, [])
    ∧ Stay_key a = (h, rid, gid)
    ∧ (checkin a, checkout a, status a) = (ci, co, st)
    ∧ (∀ q b, Stay_objects s !! q = Some b → Stay_key b = (h, rid, gid) → q = p)
    ∧ ((∀ q b, Stay_objects s !! q = Some b → Stay_key b ≠ (h, rid, gid)) →
       Stay_objects s !! p = None ∧ guest a = None).
Proof.
  intros Hunique. unfold Stay_objects_update_or_create.
  destruct (objects_update_or_create _ _ _ (Stay_objects s)) as [res tbl] eqn:Hrun.
  apply (update_or_create_result Stay_key _ (h, rid, gid)) in Hrun;
    [| intros r; apply Stay_test_key | done | by intros []].
  destruct res as [[[p a] created] | e].
  - destruct Hrun as (-> & Hk & [(-> & Hnone & Hfresh) | (a0 & Ha0 & -> & Honly)]).
    + eexists p, _, created. split; [done |]. split; [done |]. split; [done |].
      split; [| done]. intros q b Hq Hb. by destruct (Hfresh _ _ Hq).
    + eexists p, _, created. split; [done |]. split; [done |]. split; [done |].
      split; [done |]. intros Hfresh. destruct (Hfresh _ _ Ha0).
      by rewrite <- Hk.
  - destruct Hrun as (_ & _ & p & q & a & b & Hne & Hp & Ha & Hq & Hb).
    destruct Hne. eapply Hunique; eauto. congruence.
Qed.

Lemma Guest_update_or_create_exact (ph nm : json) (s : DB) :
  (∀ p q a b, Guest_objects s !! p = Some a → Guest_objects s !! q = Some b →
              phone a = phone b → p = q) →
  ∃ p created,
    Guest_objects_update_or_create ph nm s
    = (Ok (p, {| phone := ph; name := nm |}, created),
       set_Guest_objects (<[p := {| phone := ph; name := nm |}]> (Guest_objects s)) s, [])
    ∧ (∀ q b, Guest_objects s !! q = Some b → phone b = ph → q = p)
    ∧ ((∀ q b, Guest_objects s !! q = Some b → phone b ≠ ph) → Guest_objects s !! p = None).
Proof.
  intros Hunique. unfold Guest_objects_update_or_create.
  destruct (objects_update_or_create _ _ _ (Guest_objects s)) as [res tbl] eqn:Hrun.
  apply (update_or_create_result phone _ ph) in Hrun;
    [| intros r; apply json_eqb_eq | done | by intros []].
  destruct res as [[[p a] created] | e].
  - destruct Hrun as (-> & Hk & [(-> & Hnone & Hfresh) | (a0 & Ha0 & -> & Honly)]).
    + exists p, created. split; [done |]. split; [| done].
      intros q b Hq Hb. by destruct (Hfresh _ _ Hq).
    + simpl in Hk. rewrite Hk. exists p, created. split; [done |]. split; [done |].
      intros Hfresh. by destruct (Hfresh _ _ Ha0).
  - destruct Hrun as (_ & _ & p & q & a & b & Hne & Hp & Ha & Hq & Hb).
    destruct Hne. eapply Hunique; eauto. congruence.
Qed.

Section more_webhook_facts.
Variable json_loads : string → loads_result.
Variable get_reservation_details : json → result string.
Variable get_guest_details : json → result string.
Context {PhoneNumber : Type}.
Variable phonenumbers_parse : json → result PhoneNumber.
Variable phonenumbers_is_valid_number : PhoneNumber → bool.

Local Abbreviation validate :=
  (validate_phone_number phonenumbers_parse phonenumbers_is_valid_number).
Local Abbreviation on_event :=
  (handle_event json_loads get_reservation_details get_guest_details
     phonenumbers_parse phonenumbers_is_valid_number).
Local Abbreviation on_webhook :=
  (handle_webhook json_loads get_reservation_details get_guest_details
     phonenumbers_parse phonenumbers_is_valid_number).

Ltac eval_in H :=
  rewrite run_eval_bind in H;
  match type of H with
  | match ?x with _ => _ end = _ => destruct x as [? | ?] eqn:?
  end.

Lemma handle_event_silent (hotel_row : positive * Hotel) (event : json) :
  silent (on_event hotel_row event).
Proof.
  unfold handle_event.
  do 10 (apply silent_bind; [apply silent_eval | intros ?]).
  apply silent_bind; [apply silent_Stay_objects_update_or_create |].
  intros [[stay_pk stay] created].
  do 3 (apply silent_bind; [apply silent_eval | intros ?]).
  apply silent_bind; [apply silent_Guest_objects_update_or_create |].
  intros [[guest_pk g] gcreated]. by intros d.
Qed.

(** One event writes at most one Stay, of the hotel of the webhook, and at
    most one Guest; a row it overwrites had the same key. *)
Lemma handle_event_writes (hotel_row : positive * Hotel) (event : json)
    (d d' : DB) (r : result unit) (out : list string) :
  on_event hotel_row event d = (r, d', out) →
  Hotel_objects d' = Hotel_objects d
  ∧ (Stay_objects d' = Stay_objects d
     ∨ ∃ p s, Stay_objects d' = <[p := s]> (Stay_objects d)
              ∧ hotel s = hotel_row.1
              ∧ (∀ a0, Stay_objects d !! p = Some a0 → Stay_key a0 = Stay_key s)
              ∧ (guest s = None
                 ∨ (∃ a0, Stay_objects d !! p = Some a0 ∧ guest s = guest a0)
                 ∨ ∃ g, guest s = Some g ∧ is_Some (Guest_objects d' !! g)))
  ∧ (Guest_objects d' = Guest_objects d
     ∨ ∃ p g, Guest_objects d' = <[p := g]> (Guest_objects d)
              ∧ ∀ a0, Guest_objects d !! p = Some a0 → phone a0 = phone g).
Proof.
  unfold handle_event. intros Hrun.
  do 10 (eval_in Hrun; [| injection Hrun as _ <- _; by auto]).
  rewrite run_bind in Hrun.
  match type of Hrun with
  | context [Stay_objects_update_or_create ?h ?rid ?gid ?ci ?co ?st d] =>
      destruct (Stay_objects_update_or_create h rid gid ci co st d)
        as [[res s1] out1] eqn:Hstay
  end.
  apply Stay_update_or_create_writes in Hstay as (Hh1 & Hg1 & Hres).
  destruct res as [[[stay_pk stay] created] | err];
    [| destruct Hres as [-> _]; injection Hrun as _ <- _; by auto].
  destruct Hres as (Hs1 & Hkey & _ & Hold).
  assert (hotel stay = hotel_row.1) as Hhotel by (by injection Hkey).
  assert (∀ a0, Stay_objects d !! stay_pk = Some a0 → Stay_key a0 = Stay_key stay) as Hsame.
  { intros row Hrow. rewrite Hrow in Hold. by destruct Hold. }
  assert (guest stay = None
          ∨ (∃ a0, Stay_objects d !! stay_pk = Some a0 ∧ guest stay = guest a0)) as Hguest.
  { destruct (Stay_objects d !! stay_pk) as [row |]; [right | by left].
    exists row. by destruct Hold. }
  assert (Hotel_objects s1 = Hotel_objects d
          ∧ (Stay_objects s1 = Stay_objects d
             ∨ ∃ p s, Stay_objects s1 = <[p := s]> (Stay_objects d)
                      ∧ hotel s = hotel_row.1
                      ∧ (∀ a0, Stay_objects d !! p = Some a0 → Stay_key a0 = Stay_key s)
                      ∧ (guest s = None
                         ∨ (∃ a0, Stay_objects d !! p = Some a0 ∧ guest s = guest a0)
                         ∨ ∃ g, guest s = Some g ∧ is_Some (Guest_objects s1 !! g)))
          ∧ (Guest_objects s1 = Guest_objects d
             ∨ ∃ p g, Guest_objects s1 = <[p := g]> (Guest_objects d)
                      ∧ ∀ a0, Guest_objects d !! p = Some a0 → phone a0 = phone g))
    as Hstopped.
  { split; [done |]. split; [| by left]. right. exists stay_pk, stay.
    split; [done |]. split; [done |]. split; [done |]. destruct Hguest; auto. }
  match type of Hrun with
  | match ?run with _ => _ end = _ => destruct run as [[r1 s2] out2] eqn:Hlink
  end.
  injection Hrun as <- <- <-.
  do 3 (eval_in Hlink; [| injection Hlink as _ <- _; exact Hstopped]).
  rewrite run_bind in Hlink.
  match type of Hlink with
  | context [Guest_objects_update_or_create ?ph ?nm s1] =>
      destruct (Guest_objects_update_or_create ph nm s1) as [[res s3] out3] eqn:Hupsert
  end.
  apply Guest_update_or_create_writes in Hupsert as (Hh3 & Hs3 & Hres).
  destruct res as [[[guest_pk g] gcreated] | err];
    [| destruct Hres as [-> _]; injection Hlink as _ <- _; exact Hstopped].
  destruct Hres as (Hg3 & -> & Hphone).
  unfold Stay_save in Hlink. simpl in Hlink. injection Hlink as _ <- _. simpl.
  split; [congruence |]. split; [right | right].
  - exists stay_pk, (set_guest stay guest_pk).
    rewrite Hs3, Hs1, insert_insert_eq. split; [done |]. split; [done |].
    split; [exact Hsame |]. right; right. exists guest_pk. split; [done |].
    rewrite Hg3, lookup_insert_eq. by eexists.
  - eexists guest_pk, _. rewrite Hg3, Hg1. split; [done |].
    intros row Hrow. apply Hphone. by rewrite Hg1.
Qed.

(** A property of the database that every event keeps is kept by the loop. *)
Lemma for_each_keeps (I : DB → DB → Prop) (hotel_row : positive * Hotel)
    (events : list json) (d d' : DB) (r : result unit) (out : list string) :
  (∀ a, I a a) → (∀ a b c, I a b → I b c → I a c) →
  (∀ event a b r1 out1,
     Hotel_objects a = Hotel_objects d →
     on_event hotel_row event a = (r1, b, out1) → I a b) →
  for_each events (on_event hotel_row) d = (r, d', out) → I d d'.
Proof.
  intros Hrefl Htrans. revert d d' r out.
  induction events as [| event events IH]; intros d d' r out Hstep Hrun.
  - injection Hrun as _ <- _. apply Hrefl.
  - simpl in Hrun. rewrite run_bind in Hrun.
    destruct (on_event hotel_row event d) as [[[[] | e] d1] out1] eqn:Hevent.
    + destruct (for_each events (on_event hotel_row) d1) as [[r2 d2] out2] eqn:Hrest.
      injection Hrun as _ <- _. apply Htrans with d1; [by eapply Hstep |].
      eapply IH; [| exact Hrest]. intros ev a b r1 out3 Ha. apply Hstep.
      rewrite Ha. by apply handle_event_writes in Hevent as [? _].
    + injection Hrun as _ <- _. by eapply Hstep.
Qed.

(** Either [handle_webhook] stops before the loop and writes nothing, or it
    finds the hotel and leaves the database as the loop left it. *)
Lemma handle_webhook_cases (webhook_data : json) (d : DB) :
  (on_webhook webhook_data d).1.2 = d
  ∨ ∃ id_hotel hotel_row events items r out,
      subscript webhook_data "HotelId" = Ok id_hotel
      ∧ Hotel_objects d !! hotel_row.1 = Some hotel_row.2
      ∧ pms_hotel_id hotel_row.2 = id_hotel
      ∧ subscript webhook_data "Events" = Ok events
      ∧ iterate events = Ok items
      ∧ for_each items (on_event hotel_row) d = (r, (on_webhook webhook_data d).1.2, out).
Proof.
  unfold handle_webhook. rewrite run_eval_bind.
  destruct (subscript webhook_data "HotelId") as [id_hotel | e] eqn:Hid; [| by left].
  rewrite run_bind. unfold try_except_APIError. rewrite run_bind.
  unfold Hotel_objects_get.
  destruct (objects_get_cases (λ h, json_eqb (pms_hotel_id h) id_hotel) (Hotel_objects d))
    as [[-> _] | [(p & h & -> & Hp & Hh & _) | [-> _]]]; [by left | | by left].
  rewrite run_eval_bind.
  destruct (subscript webhook_data "Events") as [events | e] eqn:Hevents;
    [| left; by destruct e].
  rewrite run_eval_bind.
  destruct (iterate events) as [items | e] eqn:Hitems; [| left; by destruct e].
  destruct (for_each items (on_event (p, h)) d) as [[r d1] out] eqn:Hloop.
  right. exists id_hotel, (p, h), events, items, r, out.
  apply json_eqb_eq in Hh. repeat (split; [done |]).
  destruct r as [[] | []]; simpl; done.
Qed.

Lemma handle_event_frame (hotel_row : positive * Hotel) (event : json)
    (d d' : DB) (r : result unit) (out : list string) :
  on_event hotel_row event d = (r, d', out) →
  ∀ q a, Stay_objects d !! q = Some a → hotel a ≠ hotel_row.1 →
         Stay_objects d' !! q = Some a.
Proof.
  intros Hrun q a Hq Hother.
  apply handle_event_writes in Hrun as (_ & [-> | (p & s & -> & Hs & Hsame & _)] & _);
    [done |].
  destruct (decide (p = q)) as [-> | Hne]; [| by rewrite lookup_insert_ne].
  apply Hsame in Hq. destruct Hother. unfold Stay_key in Hq. congruence.
Qed.

Lemma handle_event_size (hotel_row : positive * Hotel) (event : json)
    (d d' : DB) (r : result unit) (out : list string) :
  on_event hotel_row event d = (r, d', out) →
  (size (Stay_objects d') ≤ S (size (Stay_objects d)))%nat
  ∧ (size (Guest_objects d') ≤ S (size (Guest_objects d)))%nat.
Proof.
  intros Hrun.
  apply handle_event_writes in Hrun as (_ & [-> | (p & s & -> & _)] & [-> | (q & g & -> & _)]);
    rewrite ?map_size_insert; repeat case_match; simpl; lia.
Qed.

Lemma handle_event_references (hotel_row : positive * Hotel) (event : json)
    (d d' : DB) (r : result unit) (out : list string) :
  is_Some (Hotel_objects d !! hotel_row.1) →
  on_event hotel_row event d = (r, d', out) →
  references_exist d → references_exist d'.
Proof.
  intros Hhotel Hrun [Hhotels Hguests].
  apply handle_event_writes in Hrun as (Hh & Hstays & Hgrow).
  assert (∀ g, is_Some (Guest_objects d !! g) → is_Some (Guest_objects d' !! g)) as Hkept.
  { intros g Hg. destruct Hgrow as [-> | (p & row & -> & _)]; [done |].
    rewrite lookup_insert_is_Some. destruct (decide (p = g)); auto. }
  split.
  - intros q a Hq. rewrite Hh.
    destruct Hstays as [Heq | (p & s & Heq & Hs & _)]; rewrite Heq in Hq; [by eapply Hhotels |].
    apply lookup_insert_Some in Hq as [[_ <-] | [_ Hq]]; [by rewrite Hs | by eapply Hhotels].
  - intros q a g Hq Hg.
    destruct Hstays as [Heq | (p & s & Heq & _ & _ & Hlink)]; rewrite Heq in Hq;
      [by eapply Hkept, Hguests |].
    apply lookup_insert_Some in Hq as [[_ <-] | [_ Hq]]; [| by eapply Hkept, Hguests].
    destruct Hlink as [Hnone | [(a0 & Ha0 & Hsame) | (g' & Hg' & Hexists)]].
    + congruence.
    + eapply Hkept, Hguests; [exact Ha0 | congruence].
    + congruence.
Qed.

Lemma for_each_size (hotel_row : positive * Hotel) (events : list json)
    (d d' : DB) (r : result unit) (out : list string) :
  for_each events (on_event hotel_row) d = (r, d', out) →
  (size (Stay_objects d') ≤ size (Stay_objects d) + List.length events)%nat
  ∧ (size (Guest_objects d') ≤ size (Guest_objects d) + List.length events)%nat.
Proof.
  revert d d' r out. induction events as [| event events IH]; intros d d' r out Hrun.
  - injection Hrun as _ <- _. simpl. lia.
  - simpl in Hrun. rewrite run_bind in Hrun.
    destruct (on_event hotel_row event d) as [[[[] | e] d1] out1] eqn:Hevent;
      apply handle_event_size in Hevent.
    + destruct (for_each events (on_event hotel_row) d1) as [[r2 d2] out2] eqn:Hrest.
      injection Hrun as _ <- _. apply IH in Hrest. simpl. lia.
    + injection Hrun as _ <- _. simpl. lia.
Qed.

(** X6. [handle_webhook] either returns True or raises an exception that is
    not APIError: it never returns False and an APIError never reaches the
    caller. *)
Theorem handle_webhook_True_or_raises (webhook_data : json) (d : DB) :
  match (on_webhook webhook_data d).1.1 with
  | Ok success => success = true
  | Raise e => ∀ msg, e ≠ APIError msg
  end.
Proof.
  unfold handle_webhook. rewrite run_eval_bind.
  destruct (subscript webhook_data "HotelId") as [id_hotel | e] eqn:Hid.
  - rewrite run_bind. unfold try_except_APIError.
    match goal with
    | |- context [match ?body d with _ => _ end] => destruct (body d) as [[[[] | e] d1] out1]
    end; [done |]. by destruct e.
  - simpl. apply subscript_raises in Hid as [-> | ->]; done.
Qed.

(** X7. [handle_webhook] prints nothing, except for the one line
    "Api error at ..." when an APIError was caught, and then it returns True. *)
Theorem handle_webhook_prints_at_most_one_line (webhook_data : json) (d : DB) :
  (on_webhook webhook_data d).2 = []
  ∨ (on_webhook webhook_data d).1.1 = Ok true
    ∧ ∃ msg, (on_webhook webhook_data d).2 = ["Api error at " +:+ msg].
Proof.
  unfold handle_webhook. rewrite run_eval_bind.
  destruct (subscript webhook_data "HotelId") as [id_hotel | e]; [| by left].
  rewrite run_bind. unfold try_except_APIError.
  match goal with
  | |- context [match ?body d with _ => _ end] =>
      assert (silent body) as Hsilent; [| specialize (Hsilent d);
        destruct (body d) as [[[[] | e] d1] out1]; simpl in Hsilent; subst out1]
  end.
  - apply silent_bind; [by intros d0 |]. intros hotel_row.
    do 2 (apply silent_bind; [apply silent_eval | intros ?]).
    apply silent_for_each. intros event. apply handle_event_silent.
  - by left.
  - destruct e; try by left. right. split; [done |]. by exists msg.
Qed.

(** X8. [handle_webhook] never deletes a row and never changes a key: every
    Stay and every Guest is still stored under its primary key, with the same
    hotel, reservation id and guest id, respectively the same phone, and the
    Hotel table is as it was. *)
Theorem handle_webhook_keeps_rows (webhook_data : json) (d : DB) :
  let d' := (on_webhook webhook_data d).1.2 in
  Hotel_objects d' = Hotel_objects d
  ∧ (∀ p a, Stay_objects d !! p = Some a →
            ∃ b, Stay_objects d' !! p = Some b ∧ Stay_key b = Stay_key a)
  ∧ (∀ p a, Guest_objects d !! p = Some a →
            ∃ b, Guest_objects d' !! p = Some b ∧ phone b = phone a).
Proof.
  destruct (on_webhook webhook_data d) as [[r d'] out] eqn:Hrun. simpl.
  apply handle_webhook_extends in Hrun as (Hh & [Hs _] & [Hg _]). auto.
Qed.

(** X9. References are kept: when every Stay belongs to a stored Hotel and
    every guest of a Stay is a stored Guest, the same holds after
    [handle_webhook], however it ends. *)
Theorem handle_webhook_keeps_references (webhook_data : json) (d : DB) :
  references_exist d → references_exist (on_webhook webhook_data d).1.2.
Proof.
  intros Hrefs.
  destruct (handle_webhook_cases webhook_data d)
    as [-> | (id_hotel & hotel_row & events & items & r & out & _ & Hhotel & _ & _ & _ & Hloop)];
    [done |].
  revert Hrefs.
  eapply (for_each_keeps (λ a b, references_exist a → references_exist b));
    [| | | exact Hloop].
  - auto.
  - auto.
  - intros event a b r1 out1 Hsame Hevent. eapply handle_event_references; [| exact Hevent].
    rewrite Hsame, Hhotel. by eexists.
Qed.

(** X10. Only stays of the hotel named in the payload are written: a Stay of
    a hotel whose PMS id is not the "HotelId" of the payload is left exactly
    as it was. *)
Theorem handle_webhook_other_hotels_untouched (webhook_data id_hotel : json) (d : DB)
    (q : positive) (a : Stay) :
  subscript webhook_data "HotelId" = Ok id_hotel →
  Stay_objects d !! q = Some a →
  (∀ h, Hotel_objects d !! hotel a = Some h → pms_hotel_id h ≠ id_hotel) →
  Stay_objects (on_webhook webhook_data d).1.2 !! q = Some a.
Proof.
  intros Hid Hq Hother.
  destruct (handle_webhook_cases webhook_data d)
    as [-> | (id' & hotel_row & events & items & r & out & Hid' & Hhotel & Hpms & _ & _ & Hloop)];
    [done |].
  assert (id' = id_hotel) as -> by congruence.
  assert (hotel a ≠ hotel_row.1) as Hne.
  { intros Heq. apply (Hother hotel_row.2); [by rewrite Heq | done]. }
  revert Hq.
  eapply (for_each_keeps
            (λ x y, Stay_objects x !! q = Some a → Stay_objects y !! q = Some a));
    [| | | exact Hloop].
  - auto.
  - auto.
  - intros event x y r1 out1 _ Hevent Hx. by eapply handle_event_frame.
Qed.

(** X11. A webhook adds at most one Stay and one Guest for each of its
    events. *)
Theorem handle_webhook_adds_at_most_one_per_event (webhook_data events : json)
    (items : list json) (d : DB) :
  subscript webhook_data "Events" = Ok events → iterate events = Ok items →
  let d' := (on_webhook webhook_data d).1.2 in
  (size (Stay_objects d') ≤ size (Stay_objects d) + List.length items)%nat
  ∧ (size (Guest_objects d') ≤ size (Guest_objects d) + List.length items)%nat.
Proof.
  intros Hevents Hitems. simpl.
  destruct (handle_webhook_cases webhook_data d)
    as [-> | (id & hotel_row & events' & items' & r & out & _ & _ & _ & Hevents' & Hitems' & Hloop)];
    [lia |].
  assert (items' = items) as -> by congruence. by eapply for_each_size.
Qed.

(** [handle_webhook] once the hotel is found and the events are listed: what
    the loop returns decides the outcome. *)
Lemma handle_webhook_run (webhook_data id_hotel events : json) (hotel_row : positive * Hotel)
    (items : list json) (d d' : DB) (r : result unit) (out : list string) :
  subscript webhook_data "HotelId" = Ok id_hotel →
  Hotel_objects_get id_hotel d = (Ok hotel_row, d, []) →
  subscript webhook_data "Events" = Ok events →
  iterate events = Ok items →
  for_each items (on_event hotel_row) d = (r, d', out) →
  on_webhook webhook_data d
  = match r with
    | Ok _ => (Ok true, d', out)
    | Raise (APIError msg) => (Ok true, d', out ++ ["Api error at " +:+ msg])
    | Raise e => (Raise e, d', out)
    end.
Proof.
  intros Hid Hhotel Hevents Hitems Hloop.
  unfold handle_webhook. step_with Hid. rewrite run_bind.
  unfold try_except_APIError. rewrite run_bind, Hhotel. lazy beta iota.
  step_with Hevents. step_with Hitems. rewrite Hloop.
  destruct r as [[] | []]; simpl; by rewrite ?app_nil_r.
Qed.

Lemma for_each_keeps_unique_keys (hotel_row : positive * Hotel) (events : list json)
    (d d' : DB) (r : result unit) (out : list string) :
  for_each events (on_event hotel_row) d = (r, d', out) →
  unique_keys d → unique_keys d'.
Proof.
  intros Hrun [Hstays Hguests]. apply for_each_extends in Hrun as (_ & Hs & Hg). split.
  - by apply (extends_keys_unique _ _ _ Hs).
  - by apply (extends_keys_unique _ _ _ Hg).
Qed.

(** One event whose reservation and guest are fetched, on unique keys: the
    two tables afterwards, row for row. *)
Lemma handle_event_exact
    (event value res_id res_details guest_id guest_details ci co st ph nm : json)
    (hotel_row : positive * Hotel) (payload1 payload2 : string) (valid : bool) (d : DB) :
  subscript event "Value" = Ok value →
  subscript value "ReservationId" = Ok res_id →
  get_reservation_details res_id = Ok payload1 →
  json_loads payload1 = Decoded res_details →
  subscript res_details "GuestId" = Ok guest_id →
  get_guest_details guest_id = Ok payload2 →
  json_loads payload2 = Decoded guest_details →
  subscript res_details "CheckInDate" = Ok ci →
  subscript res_details "CheckOutDate" = Ok co →
  subscript res_details "Status" = Ok st →
  subscript guest_details "Phone" = Ok ph →
  validate ph = Ok valid →
  subscript guest_details "Name" = Ok nm →
  unique_keys d →
  ∃ stay_pk guest_pk d',
    on_event hotel_row event d = (Ok tt, d', [])
    ∧ Hotel_objects d' = Hotel_objects d
    ∧ Stay_objects d'
      = <[stay_pk := {| hotel := hotel_row.1; pms_reservation_id := res_id;
                        pms_guest_id := guest_id; checkin := ci; checkout := co;
                        status := st; guest := Some guest_pk |}]> (Stay_objects d)
    ∧ Guest_objects d' = <[guest_pk := {| phone := ph; name := nm |}]> (Guest_objects d)
    ∧ (∀ p a, Stay_objects d !! p = Some a →
              Stay_key a = (hotel_row.1, res_id, guest_id) → p = stay_pk)
    ∧ ((∀ p a, Stay_objects d !! p = Some a →
               Stay_key a ≠ (hotel_row.1, res_id, guest_id)) →
       Stay_objects d !! stay_pk = None)
    ∧ (∀ p g, Guest_objects d !! p = Some g → phone g = ph → p = guest_pk)
    ∧ ((∀ p g, Guest_objects d !! p = Some g → phone g ≠ ph) →
       Guest_objects d !! guest_pk = None).
Proof.
  intros Hvalue Hres Hcall1 Hloads1 Hgid Hcall2 Hloads2
    Hci Hco Hst Hph Hvalid Hnm [Hstays Hguests].
  unfold handle_event. step_with Hvalue. step_with Hres. step_with Hcall1.
  unfold clean_webhook_payload. step_with Hloads1. step_with Hgid. step_with Hcall2.
  step_with Hloads2. step_with Hci. step_with Hco. step_with Hst.
  rewrite run_bind.
  destruct (Stay_update_or_create_exact hotel_row.1 res_id guest_id ci co st d Hstays)
    as (sp & stay & created & -> & Hkey & Hfields & Honly & Hnew).
  lazy beta iota. step_with Hph. step_with Hvalid. step_with Hnm. rewrite run_bind.
  destruct (Guest_update_or_create_exact ph nm
              (set_Stay_objects (<[sp := stay]> (Stay_objects d)) d) Hguests)
    as (gp & gcreated & -> & Hgonly & Hgnew).
  lazy beta iota. unfold Stay_save. simpl.
  eexists sp, gp, _. split; [reflexivity |]. simpl. rewrite insert_insert_eq.
  split; [done |]. split.
  { f_equal. destruct stay. unfold Stay_key, set_guest in *. simpl in *. congruence. }
  split; [done |]. split; [done |]. split; [intros Hfresh; by apply Hnew |].
  split; done.
Qed.

(** X12. Update or create.  For the last event of a payload, the events
    before it handled and its reservation and guest fetched, on unique keys:
    [handle_webhook] returns True and the event writes exactly one Stay and
    one Guest.  A Stay that already has the key (hotel, reservation id, guest
    id) is the row overwritten, under its own primary key; when there is none
    the row is new.  The same holds of the Guest and its phone. *)
Theorem handle_webhook_creates_or_overwrites
    (webhook_data id_hotel events event value res_id res_details guest_id
       guest_details ci co st ph nm : json)
    (hotel_row : positive * Hotel) (before : list json) (payload1 payload2 : string)
    (valid : bool) (d d1 : DB) (out1 : list string) :
  subscript webhook_data "HotelId" = Ok id_hotel →
  Hotel_objects_get id_hotel d = (Ok hotel_row, d, []) →
  subscript webhook_data "Events" = Ok events →
  iterate events = Ok (before ++ [event]) →
  for_each before (on_event hotel_row) d = (Ok tt, d1, out1) →
  subscript event "Value" = Ok value →
  subscript value "ReservationId" = Ok res_id →
  get_reservation_details res_id = Ok payload1 →
  json_loads payload1 = Decoded res_details →
  subscript res_details "GuestId" = Ok guest_id →
  get_guest_details guest_id = Ok payload2 →
  json_loads payload2 = Decoded guest_details →
  subscript res_details "CheckInDate" = Ok ci →
  subscript res_details "CheckOutDate" = Ok co →
  subscript res_details "Status" = Ok st →
  subscript guest_details "Phone" = Ok ph →
  validate ph = Ok valid →
  subscript guest_details "Name" = Ok nm →
  unique_keys d →
  ∃ stay_pk guest_pk d',
    on_webhook webhook_data d = (Ok true, d', [])
    ∧ Stay_objects d'
      = <[stay_pk := {| hotel := hotel_row.1; pms_reservation_id := res_id;
                        pms_guest_id := guest_id; checkin := ci; checkout := co;
                        status := st; guest := Some guest_pk |}]> (Stay_objects d1)
    ∧ Guest_objects d' = <[guest_pk := {| phone := ph; name := nm |}]> (Guest_objects d1)
    ∧ (∀ p a, Stay_objects d1 !! p = Some a →
              Stay_key a = (hotel_row.1, res_id, guest_id) → p = stay_pk)
    ∧ ((∀ p a, Stay_objects d1 !! p = Some a →
               Stay_key a ≠ (hotel_row.1, res_id, guest_id)) →
       Stay_objects d1 !! stay_pk = None)
    ∧ (∀ p g, Guest_objects d1 !! p = Some g → phone g = ph → p = guest_pk)
    ∧ ((∀ p g, Guest_objects d1 !! p = Some g → phone g ≠ ph) →
       Guest_objects d1 !! guest_pk = None).
Proof.
  intros Hid Hhotel Hevents Hitems Hbefore Hvalue Hres Hcall1 Hloads1 Hgid Hcall2 Hloads2
    Hci Hco Hst Hph Hvalid Hnm Hkeys.
  pose proof (silent_for_each before _ (handle_event_silent hotel_row) d) as Hsilent.
  rewrite Hbefore in Hsilent. simpl in Hsilent. subst out1.
  pose proof (for_each_keeps_unique_keys _ _ _ _ _ _ Hbefore Hkeys) as Hkeys1.
  destruct (handle_event_exact event value res_id res_details guest_id guest_details
              ci co st ph nm hotel_row payload1 payload2 valid d1)
    as (sp & gp & d' & Hrun & _ & Hfacts); try done.
  exists sp, gp, d'. split; [| done].
  assert (for_each (before ++ [event]) (on_event hotel_row) d = (Ok tt, d', [])) as Hloop.
  { rewrite for_each_app, Hbefore. simpl. by rewrite run_bind, Hrun. }
  by rewrite (handle_webhook_run _ _ _ _ _ _ _ _ _ Hid Hhotel Hevents Hitems Hloop).
Qed.

(** X13. No rollback.  When the guest details of a reached event lack "Phone"
    or "Name", the exception reaches the caller after the Stay was written:
    the Stay is stored with the fetched dates and status, no Guest is written,
    and a Stay that is new is left without a guest. *)
Theorem handle_webhook_keeps_stay_without_guest
    (webhook_data id_hotel events event value res_id res_details guest_id
       guest_details ci co st : json)
    (hotel_row : positive * Hotel) (before after : list json) (payload1 payload2 : string)
    (e : exn) (d d1 : DB) (out1 : list string) :
  subscript webhook_data "HotelId" = Ok id_hotel →
  Hotel_objects_get id_hotel d = (Ok hotel_row, d, []) →
  subscript webhook_data "Events" = Ok events →
  iterate events = Ok (before ++ event :: after) →
  for_each before (on_event hotel_row) d = (Ok tt, d1, out1) →
  subscript event "Value" = Ok value →
  subscript value "ReservationId" = Ok res_id →
  get_reservation_details res_id = Ok payload1 →
  json_loads payload1 = Decoded res_details →
  subscript res_details "GuestId" = Ok guest_id →
  get_guest_details guest_id = Ok payload2 →
  json_loads payload2 = Decoded guest_details →
  subscript res_details "CheckInDate" = Ok ci →
  subscript res_details "CheckOutDate" = Ok co →
  subscript res_details "Status" = Ok st →
  (subscript guest_details "Phone" = Raise e
   ∨ ∃ ph valid, subscript guest_details "Phone" = Ok ph ∧ validate ph = Ok valid
                 ∧ subscript guest_details "Name" = Raise e) →
  unique_keys d →
  ∃ stay_pk stay d',
    on_webhook webhook_data d = (Raise e, d', [])
    ∧ Stay_objects d' = <[stay_pk := stay]> (Stay_objects d1)
    ∧ Stay_key stay = (hotel_row.1, res_id, guest_id)
    ∧ (checkin stay, checkout stay, status stay) = (ci, co, st)
    ∧ Guest_objects d' = Guest_objects d1
    ∧ ((∀ p a, Stay_objects d1 !! p = Some a →
               Stay_key a ≠ (hotel_row.1, res_id, guest_id)) →
       Stay_objects d1 !! stay_pk = None ∧ guest stay = None).
Proof.
  intros Hid Hhotel Hevents Hitems Hbefore Hvalue Hres Hcall1 Hloads1 Hgid Hcall2 Hloads2
    Hci Hco Hst Hmissing Hkeys.
  pose proof (silent_for_each before _ (handle_event_silent hotel_row) d) as Hsilent.
  rewrite Hbefore in Hsilent. simpl in Hsilent. subst out1.
  pose proof (for_each_keeps_unique_keys _ _ _ _ _ _ Hbefore Hkeys) as [Hstays _].
  destruct (Stay_update_or_create_exact hotel_row.1 res_id guest_id ci co st d1 Hstays)
    as (sp & stay & created & Hupsert & Hkey & Hfields & _ & Hnew).
  exists sp, stay, (set_Stay_objects (<[sp := stay]> (Stay_objects d1)) d1).
  split; [| done].
  assert (on_event hotel_row event d1
          = (Raise e, set_Stay_objects (<[sp := stay]> (Stay_objects d1)) d1, [])) as Hevent.
  { unfold handle_event. step_with Hvalue. step_with Hres. step_with Hcall1.
    unfold clean_webhook_payload. step_with Hloads1. step_with Hgid. step_with Hcall2.
    step_with Hloads2. step_with Hci. step_with Hco. step_with Hst.
    rewrite run_bind, Hupsert. lazy beta iota.
    destruct Hmissing as [Hph | (ph & valid & Hph & Hvalid & Hnm)].
    - by step_with Hph.
    - step_with Hph. step_with Hvalid. by step_with Hnm. }
  assert (for_each (before ++ event :: after) (on_event hotel_row) d
          = (Raise e, set_Stay_objects (<[sp := stay]> (Stay_objects d1)) d1, [])) as Hloop.
  { rewrite for_each_app, Hbefore. simpl. by rewrite run_bind, Hevent. }
  rewrite (handle_webhook_run _ _ _ _ _ _ _ _ _ Hid Hhotel Hevents Hitems Hloop).
  destruct Hmissing as [Hph | (ph & valid & _ & _ & Hnm)];
    [apply subscript_raises in Hph as [-> | ->] | apply subscript_raises in Hnm as [-> | ->]];
    done.
Qed.

Lemma Hotel_objects_get_run (id_hotel : json) (d : DB) :
  (∃ hotel_row, Hotel_objects_get id_hotel d = (Ok hotel_row, d, []))
  ∨ ∃ e, Hotel_objects_get id_hotel d = (Raise e, d, []) ∧ ∀ msg, e ≠ APIError msg.
Proof.
  unfold Hotel_objects_get.
  destruct (objects_get_cases (λ h, json_eqb (pms_hotel_id h) id_hotel) (Hotel_objects d))
    as [[-> _] | [(p & h & -> & _) | [-> _]]]; [right | left | right]; eauto.
Qed.

Lemma handle_webhook_no_hotel (webhook_data id_hotel : json) (e : exn) (d : DB) :
  subscript webhook_data "HotelId" = Ok id_hotel →
  Hotel_objects_get id_hotel d = (Raise e, d, []) → (∀ msg, e ≠ APIError msg) →
  on_webhook webhook_data d = (Raise e, d, []).
Proof.
  intros Hid Hhotel Hother. unfold handle_webhook. step_with Hid. rewrite run_bind.
  unfold try_except_APIError. rewrite run_bind, Hhotel.
  destruct e; try done. by destruct (Hother msg).
Qed.

Lemma handle_webhook_payload_no_hotel (id_hotel : json) (events : list json)
    (e : exn) (d : DB) :
  Hotel_objects_get id_hotel d = (Raise e, d, []) → (∀ msg, e ≠ APIError msg) →
  on_webhook (webhook_payload id_hotel events) d = (Raise e, d, []).
Proof. by apply handle_webhook_no_hotel. Qed.

Lemma handle_webhook_payload_run (id_hotel : json) (events : list json)
    (hotel_row : positive * Hotel) (d d' : DB) (r : result unit) (out : list string) :
  Hotel_objects_get id_hotel d = (Ok hotel_row, d, []) →
  for_each events (on_event hotel_row) d = (r, d', out) →
  on_webhook (webhook_payload id_hotel events) d
  = match r with
    | Ok _ => (Ok true, d', out)
    | Raise (APIError msg) => (Ok true, d', out ++ ["Api error at " +:+ msg])
    | Raise e => (Raise e, d', out)
    end.
Proof.
  intros Hhotel Hloop.
  by apply (handle_webhook_run (webhook_payload id_hotel events) id_hotel (JArr events)
              hotel_row events).
Qed.

(** X14. The first exception ends the webhook.  When the payload that stops
    at an event does not end quietly with True (an exception was raised, or an
    APIError was caught and printed), the events listed after that event
    change nothing: the result, the database and the output are the same with
    and without them. *)
Theorem handle_webhook_ignores_later_events (id_hotel : json)
    (before after : list json) (event : json) (d : DB) :
  let short := on_webhook (webhook_payload id_hotel (before ++ [event])) d in
  (short.1.1, short.2) ≠ (Ok true, []) →
  on_webhook (webhook_payload id_hotel (before ++ event :: after)) d = short.
Proof.
  intros short Hstopped. subst short.
  destruct (Hotel_objects_get_run id_hotel d) as [[hotel_row Hhotel] | (e & Hhotel & Hother)].
  2: { by rewrite !(handle_webhook_payload_no_hotel _ _ _ _ Hhotel Hother). }
  pose proof (silent_for_each before _ (handle_event_silent hotel_row) d) as Hsilent.
  destruct (for_each before (on_event hotel_row) d) as [[rb db] ob] eqn:Hbefore.
  simpl in Hsilent. subst ob.
  pose proof (handle_event_silent hotel_row event db) as Hsilent.
  destruct (on_event hotel_row event db) as [[re de] oe] eqn:Hevent.
  simpl in Hsilent. subst oe.
  assert (∀ rest, for_each (before ++ event :: rest) (on_event hotel_row) d
                  = match rb with
                    | Ok _ => match re with
                              | Ok _ => for_each rest (on_event hotel_row) de
                              | Raise x => (Raise x, de, [])
                              end
                    | Raise x => (Raise x, db, [])
                    end) as Hloop.
  { intros rest. rewrite for_each_app, Hbefore. destruct rb as [[] | x]; [| done].
    simpl. rewrite run_bind, Hevent. destruct re as [[] | x]; [| done].
    by destruct (for_each rest (on_event hotel_row) de) as [[? ?] ?]. }
  pose proof (Hloop []) as Hshort. pose proof (Hloop after) as Hlong.
  destruct rb as [[] | x]; [destruct re as [[] | x] |].
  - rewrite (handle_webhook_payload_run _ _ _ _ _ _ _ Hhotel Hshort) in Hstopped.
    by destruct Hstopped.
  - by rewrite (handle_webhook_payload_run _ _ _ _ _ _ _ Hhotel Hshort),
      (handle_webhook_payload_run _ _ _ _ _ _ _ Hhotel Hlong).
  - by rewrite (handle_webhook_payload_run _ _ _ _ _ _ _ Hhotel Hshort),
      (handle_webhook_payload_run _ _ _ _ _ _ _ Hhotel Hlong).
Qed.

(** X15. A payload can be split.  When the payload with the events [xs]
    ends quietly with True, handling the events [xs ++ ys] in one payload is
    handling [ys] in a second payload, on the database the first one left. *)
Theorem handle_webhook_splits (id_hotel : json) (xs ys : list json) (d d1 : DB) :
  on_webhook (webhook_payload id_hotel xs) d = (Ok true, d1, []) →
  on_webhook (webhook_payload id_hotel (xs ++ ys)) d
  = on_webhook (webhook_payload id_hotel ys) d1.
Proof.
  intros Hfirst.
  destruct (Hotel_objects_get_run id_hotel d) as [[hotel_row Hhotel] | (e & Hhotel & Hother)].
  2: { by rewrite (handle_webhook_payload_no_hotel _ _ _ _ Hhotel Hother) in Hfirst. }
  destruct (for_each xs (on_event hotel_row) d) as [[r d'] out] eqn:Hxs.
  rewrite (handle_webhook_payload_run _ _ _ _ _ _ _ Hhotel Hxs) in Hfirst.
  assert (r = Ok tt ∧ d' = d1 ∧ out = []) as (-> & -> & ->).
  { destruct r as [[] | []]; try by injection Hfirst. injection Hfirst as _ Hout.
    by destruct out. }
  assert (Hotel_objects_get id_hotel d1 = (Ok hotel_row, d1, [])) as Hhotel1.
  { unfold Hotel_objects_get in *. apply for_each_extends in Hxs as [Hsame _].
    rewrite <- Hsame. by injection Hhotel as ->. }
  destruct (for_each ys (on_event hotel_row) d1) as [[r2 d2] out2] eqn:Hys.
  rewrite (handle_webhook_payload_run _ _ _ _ _ _ _ Hhotel1 Hys).
  erewrite (handle_webhook_payload_run _ _ _ _ _ _ _ Hhotel); [done |].
  by rewrite for_each_app, Hxs, Hys.
Qed.

Lemma for_each_not_subscriptable (hotel_row : positive * Hotel) (items : list json) (d : DB) :
  Forall (λ item, ∀ fields, item ≠ JObj fields) items →
  for_each items (on_event hotel_row) d
  = (match items with [] => Ok tt | _ => Raise TypeError end, d, []).
Proof.
  intros Hitems. destruct Hitems as [| item items Hitem _]; [done |].
  simpl. rewrite run_bind. unfold handle_event. rewrite run_eval_bind.
  destruct item; try done. by destruct (Hitem fields).
Qed.

(** X16. Payloads of the wrong shape.  A payload that is not a dict raises
    TypeError before anything is read.  With the hotel found, "Events" that
    is not a list raises TypeError and writes nothing, except when it is an
    empty dict or an empty str, which is handled like an empty list. *)
Theorem handle_webhook_wrong_shapes (webhook_data : json) (d : DB) :
  ((∀ fields, webhook_data ≠ JObj fields) →
   on_webhook webhook_data d = (Raise TypeError, d, []))
  ∧ ∀ id_hotel hotel_row events,
      subscript webhook_data "HotelId" = Ok id_hotel →
      Hotel_objects_get id_hotel d = (Ok hotel_row, d, []) →
      subscript webhook_data "Events" = Ok events →
      (∀ items, events ≠ JArr items) →
      on_webhook webhook_data d
      = (match iterate events with Ok [] => Ok true | _ => Raise TypeError end, d, []).
Proof.
  split.
  - intros Hshape. unfold handle_webhook. rewrite run_eval_bind.
    destruct webhook_data; try done. by destruct (Hshape fields).
  - intros id_hotel hotel_row events Hid Hhotel Hevents Hshape.
    destruct (iterate events) as [items | e] eqn:Hitems.
    + assert (Forall (λ item, ∀ fields, item ≠ JObj fields) items) as Hstr.
      { destruct events as [| b | n | lit | s | l | fields]; try done;
          injection Hitems as <-.
        - clear. induction s as [| c s IH]; simpl; [apply List.Forall_nil |].
          by apply List.Forall_cons.
        - by destruct (Hshape l).
        - apply Forall_fmap, Forall_forall. by intros [k v] _ fields'. }
      rewrite (handle_webhook_run _ _ _ _ _ _ _ _ _ Hid Hhotel Hevents Hitems
                 (for_each_not_subscriptable hotel_row items d Hstr)).
      by destruct items.
    + assert (e = TypeError) as -> by (destruct events; simpl in Hitems; congruence).
      unfold handle_webhook. step_with Hid. rewrite run_bind.
      unfold try_except_APIError. rewrite run_bind, Hhotel. lazy beta iota.
      step_with Hevents. by step_with Hitems.
Qed.
End more_webhook_facts.

(** ** The properties above on the two small worlds *)

Lemma unique_keys_Incomplete_db : unique_keys Incomplete.db.
Proof.
  split; intros p q a b Hp Hq _; simpl in Hp, Hq.
  - apply lookup_singleton_Some in Hp as [<- _].
    by apply lookup_singleton_Some in Hq as [<- _].
  - by rewrite lookup_empty in Hp.
Defined.

Lemma references_exist_Incomplete_db : references_exist Incomplete.db.
Proof.
  split.
  - intros p s Hp. simpl in Hp. apply lookup_singleton_Some in Hp as [_ <-].
    by eexists.
  - intros p s g Hp Hg. simpl in Hp. apply lookup_singleton_Some in Hp as [_ <-].
    discriminate Hg.
Defined.

Lemma stay_has_breakfast_reads_only_witness :
  let stay :=
    {| hotel := 1; pms_reservation_id := JStr "R1"; pms_guest_id := JStr "G1";
       checkin := JNull; checkout := JNull; status := JNull; guest := None |} in
  let stay' :=
    {| hotel := 2; pms_reservation_id := JStr "R1"; pms_guest_id := JStr "G7";
       checkin := JStr "2024-05-01"; checkout := JNull; status := JStr "booked";
       guest := Some 3%positive |} in
  (Sample.stay_has_breakfast stay Sample.db).1.2 = Sample.db
  ∧ (Sample.stay_has_breakfast stay Sample.db).1.1
    = (Sample.stay_has_breakfast stay' Incomplete.db).1.1
  ∧ (Sample.stay_has_breakfast stay Sample.db).2
    = (Sample.stay_has_breakfast stay' Incomplete.db).2.
Proof.
  intros stay stay'.
  apply (stay_has_breakfast_reads_only Sample.json_loads Sample.get_reservation_details
           stay stay' Sample.db Incomplete.db).
  reflexivity.
Defined.

Lemma stay_has_breakfast_other_outcomes_witness :
  let stay :=
    {| hotel := 1; pms_reservation_id := JStr "R3"; pms_guest_id := JStr "G1";
       checkin := JNull; checkout := JNull; status := JNull; guest := None |} in
  Sample.stay_has_breakfast stay Sample.db
  = (Raise (ValueError "Error decoding at Expecting value: line 1 column 1 (char 0)"),
     Sample.db, []).
Proof.
  intros stay.
  apply (proj1 (stay_has_breakfast_other_outcomes Sample.json_loads
                  Sample.get_reservation_details stay Sample.db)
           "<html>Bad Gateway</html>"); reflexivity.
Defined.

Lemma validate_phone_number_outcomes_witness :
  validate_phone_number Sample.phonenumbers_parse Sample.phonenumbers_is_valid_number
    (JStr "+14155552671") = Ok true
  ∧ validate_phone_number Sample.phonenumbers_parse Sample.phonenumbers_is_valid_number
      (JInt 5) = Raise TypeError.
Proof.
  split.
  - apply (proj1 (validate_phone_number_outcomes Sample.phonenumbers_parse
                    Sample.phonenumbers_is_valid_number (JStr "+14155552671"))).
    exists "14155552671". split; reflexivity.
  - apply (proj2 (validate_phone_number_outcomes Sample.phonenumbers_parse
                    Sample.phonenumbers_is_valid_number (JInt 5))).
    split; [reflexivity | discriminate].
Defined.

Lemma handle_webhook_keeps_rows_witness :
  ∃ b, Stay_objects
         (Sample.handle_webhook (Sample.webhook [Sample.event "R1"]) Incomplete.db).1.2
       !! 1%positive = Some b
       ∧ Stay_key b = Stay_key Incomplete.other_stay.
Proof.
  apply (proj1 (proj2 (handle_webhook_keeps_rows
                         Sample.json_loads Sample.get_reservation_details
                         Sample.get_guest_details Sample.phonenumbers_parse
                         Sample.phonenumbers_is_valid_number
                         (Sample.webhook [Sample.event "R1"]) Incomplete.db))
           1%positive Incomplete.other_stay).
  reflexivity.
Defined.

Lemma handle_webhook_keeps_references_witness :
  references_exist
    (Sample.handle_webhook (Sample.webhook [Sample.event "R1"; Sample.event "R4"])
       Incomplete.db).1.2.
Proof.
  apply (handle_webhook_keeps_references
           Sample.json_loads Sample.get_reservation_details Sample.get_guest_details
           Sample.phonenumbers_parse Sample.phonenumbers_is_valid_number
           (Sample.webhook [Sample.event "R1"; Sample.event "R4"]) Incomplete.db).
  apply references_exist_Incomplete_db.
Defined.

Lemma handle_webhook_other_hotels_untouched_witness :
  Stay_objects
    (Sample.handle_webhook (Sample.webhook [Sample.event "R1"]) Incomplete.db).1.2
  !! 1%positive = Some Incomplete.other_stay.
Proof.
  apply (handle_webhook_other_hotels_untouched
           Sample.json_loads Sample.get_reservation_details Sample.get_guest_details
           Sample.phonenumbers_parse Sample.phonenumbers_is_valid_number
           (Sample.webhook [Sample.event "R1"]) (JStr "H1") Incomplete.db
           1%positive Incomplete.other_stay); [reflexivity | reflexivity |].
  intros h Hh. vm_compute in Hh. injection Hh as <-. discriminate.
Defined.

Lemma handle_webhook_adds_at_most_one_per_event_witness :
  let d' :=
    (Sample.handle_webhook (Sample.webhook [Sample.event "R1"; Sample.event "R4"])
       Incomplete.db).1.2 in
  (size (Stay_objects d') ≤ size (Stay_objects Incomplete.db) + 2)%nat
  ∧ (size (Guest_objects d') ≤ size (Guest_objects Incomplete.db) + 2)%nat.
Proof.
  apply (handle_webhook_adds_at_most_one_per_event
           Sample.json_loads Sample.get_reservation_details Sample.get_guest_details
           Sample.phonenumbers_parse Sample.phonenumbers_is_valid_number
           (Sample.webhook [Sample.event "R1"; Sample.event "R4"])
           (JArr [Sample.event "R1"; Sample.event "R4"])
           [Sample.event "R1"; Sample.event "R4"] Incomplete.db); reflexivity.
Defined.

Lemma handle_webhook_creates_or_overwrites_witness :
  ∃ d', Sample.handle_webhook (Sample.webhook [Sample.event "R4"; Sample.event "R1"]) Sample.db
        = (Ok true, d', []).
Proof.
  set (before := for_each [Sample.event "R4"]
                   (handle_event Sample.json_loads Sample.get_reservation_details
                      Sample.get_guest_details Sample.phonenumbers_parse
                      Sample.phonenumbers_is_valid_number
                      (1%positive, {| pms_hotel_id := JStr "H1" |}))
                   Sample.db).
  destruct (handle_webhook_creates_or_overwrites
              Sample.json_loads Sample.get_reservation_details Sample.get_guest_details
              Sample.phonenumbers_parse Sample.phonenumbers_is_valid_number
              (Sample.webhook [Sample.event "R4"; Sample.event "R1"]) (JStr "H1")
              (JArr [Sample.event "R4"; Sample.event "R1"])
              (Sample.event "R1") (JObj [("ReservationId", JStr "R1")]) (JStr "R1")
              (Sample.reservation "R1" "G1" true) (JStr "G1")
              (Sample.guest_record "G1" "Ada" "+14155552671")
              (JStr "2024-05-01") (JStr "2024-05-03") (JStr "booked")
              (JStr "+14155552671") (JStr "Ada")
              (1%positive, {| pms_hotel_id := JStr "H1" |}) [Sample.event "R4"]
              (Sample.dumps (Sample.reservation "R1" "G1" true))
              (Sample.dumps (Sample.guest_record "G1" "Ada" "+14155552671"))
              true Sample.db before.1.2 [])
    as (stay_pk & guest_pk & d' & Hrun & _);
    try reflexivity; [apply unique_keys_Sample_db |].
  by exists d'.
Defined.

Lemma handle_webhook_keeps_stay_without_guest_witness :
  ∃ stay_pk stay d',
    Incomplete.handle_webhook (Sample.webhook [Sample.event "R5"]) Incomplete.db
    = (Raise (KeyError "Phone"), d', [])
    ∧ Stay_objects d' = <[stay_pk := stay]> (Stay_objects Incomplete.db)
    ∧ Guest_objects d' = Guest_objects Incomplete.db.
Proof.
  destruct (handle_webhook_keeps_stay_without_guest
              Incomplete.json_loads Incomplete.get_reservation_details
              Incomplete.get_guest_details
              Sample.phonenumbers_parse Sample.phonenumbers_is_valid_number
              (Sample.webhook [Sample.event "R5"]) (JStr "H1")
              (JArr [Sample.event "R5"])
              (Sample.event "R5") (JObj [("ReservationId", JStr "R5")]) (JStr "R5")
              (Sample.reservation "R5" "G3" false) (JStr "G3")
              Incomplete.guest_without_phone
              (JStr "2024-05-01") (JStr "2024-05-03") (JStr "booked")
              (1%positive, {| pms_hotel_id := JStr "H1" |}) [] []
              (Sample.dumps (Sample.reservation "R5" "G3" false))
              (Sample.dumps Incomplete.guest_without_phone)
              (KeyError "Phone") Incomplete.db Incomplete.db [])
    as (stay_pk & stay & d' & Hrun & Hstays & _ & _ & Hguests & _);
    try reflexivity; [by left | apply unique_keys_Incomplete_db |].
  by exists stay_pk, stay, d'.
Defined.

Lemma handle_webhook_ignores_later_events_witness :
  Sample.handle_webhook
    (webhook_payload (JStr "H1") ([Sample.event "R1"] ++ Sample.event "R2" :: [Sample.event "R4"]))
    Sample.db
  = Sample.handle_webhook
      (webhook_payload (JStr "H1") ([Sample.event "R1"] ++ [Sample.event "R2"])) Sample.db.
Proof.
  apply (handle_webhook_ignores_later_events
           Sample.json_loads Sample.get_reservation_details Sample.get_guest_details
           Sample.phonenumbers_parse Sample.phonenumbers_is_valid_number
           (JStr "H1") [Sample.event "R1"] [Sample.event "R4"] (Sample.event "R2") Sample.db).
  vm_compute. discriminate.
Defined.

Lemma handle_webhook_splits_witness :
  let first := Sample.handle_webhook (webhook_payload (JStr "H1") [Sample.event "R1"]) Sample.db in
  Sample.handle_webhook
    (webhook_payload (JStr "H1") ([Sample.event "R1"] ++ [Sample.event "R4"])) Sample.db
  = Sample.handle_webhook (webhook_payload (JStr "H1") [Sample.event "R4"]) first.1.2.
Proof.
  intros first.
  apply (handle_webhook_splits
           Sample.json_loads Sample.get_reservation_details Sample.get_guest_details
           Sample.phonenumbers_parse Sample.phonenumbers_is_valid_number
           (JStr "H1") [Sample.event "R1"] [Sample.event "R4"] Sample.db first.1.2).
  vm_compute. reflexivity.
Defined.

Lemma handle_webhook_wrong_shapes_witness :
  Sample.handle_webhook (JArr []) Sample.db = (Raise TypeError, Sample.db, [])
  ∧ Sample.handle_webhook (JObj [("HotelId", JStr "H1"); ("Events", JStr "ab")]) Sample.db
    = (Raise TypeError, Sample.db, []).
Proof.
  split.
  - apply (proj1 (handle_webhook_wrong_shapes
                    Sample.json_loads Sample.get_reservation_details
                    Sample.get_guest_details Sample.phonenumbers_parse
                    Sample.phonenumbers_is_valid_number (JArr []) Sample.db)).
    discriminate.
  - apply (proj2 (handle_webhook_wrong_shapes
                    Sample.json_loads Sample.get_reservation_details
                    Sample.get_guest_details Sample.phonenumbers_parse
                    Sample.phonenumbers_is_valid_number
                    (JObj [("HotelId", JStr "H1"); ("Events", JStr "ab")]) Sample.db)
             (JStr "H1") (1%positive, {| pms_hotel_id := JStr "H1" |}) (JStr "ab"));
      try reflexivity. discriminate.
Defined.

Lemma handle_webhook_keeps_unique_keys_witness :
  unique_keys
    (Sample.handle_webhook (Sample.webhook [Sample.event "R1"; Sample.event "R4"])
       Incomplete.db).1.2.
Proof.
  set (run := Sample.handle_webhook (Sample.webhook [Sample.event "R1"; Sample.event "R4"])
                Incomplete.db).
  apply (handle_webhook_keeps_unique_keys
           Sample.json_loads Sample.get_reservation_details Sample.get_guest_details
           Sample.phonenumbers_parse Sample.phonenumbers_is_valid_number
           (Sample.webhook [Sample.event "R1"; Sample.event "R4"]) Incomplete.db
           run.1.2 run.1.1 run.2).
  - vm_compute. reflexivity.
  - apply unique_keys_Incomplete_db.
Defined.

(** ** The guest is stored whatever validation says *)

Section guest_stored_whatever_validation.
Variable json_loads : string → loads_result.
Variable get_reservation_details : json → result string.
Variable get_guest_details : json → result string.
Context {PhoneNumber1 PhoneNumber2 : Type}.
Variable parse1 : json → result PhoneNumber1.
Variable is_valid1 : PhoneNumber1 → bool.
Variable parse2 : json → result PhoneNumber2.
Variable is_valid2 : PhoneNumber2 → bool.

Local Abbreviation on_event :=
  (handle_event json_loads get_reservation_details get_guest_details parse1 is_valid1).
Local Abbreviation on_webhook :=
  (handle_webhook json_loads get_reservation_details get_guest_details parse1 is_valid1).

(** C9. [handle_webhook] throws away what [validate_phone_number] returns.
    For every event that is reached and whose reservation and guest are
    fetched, whether validation answers True or False, on unique keys: handling
    the event upserts the Guest with the fetched phone and the fetched name (a
    Guest that has the phone is overwritten, otherwise a Guest is created) and
    links the Stay to it; the Guest is still stored under that phone when
    [handle_webhook] ends, and when the event is the last one [handle_webhook]
    returns True.  Moreover, with two phone number packages under which
    validation returns for the same phones, whatever it returns,
    [handle_webhook] gives the same result, database and output. *)
Theorem handle_webhook_stores_guest_whatever_validation (webhook_data : json) (d : DB) :
  (∀ (id_hotel events event value res_id res_details guest_id guest_details
        ci co st ph nm : json)
     (hotel_row : positive * Hotel) (before after : list json)
     (payload1 payload2 : string) (valid : bool) (d1 : DB) (out1 : list string),
     subscript webhook_data "HotelId" = Ok id_hotel →
     Hotel_objects_get id_hotel d = (Ok hotel_row, d, []) →
     subscript webhook_data "Events" = Ok events →
     iterate events = Ok (before ++ event :: after) →
     for_each before (on_event hotel_row) d = (Ok tt, d1, out1) →
     subscript event "Value" = Ok value →
     subscript value "ReservationId" = Ok res_id →
     get_reservation_details res_id = Ok payload1 →
     json_loads payload1 = Decoded res_details →
     subscript res_details "GuestId" = Ok guest_id →
     get_guest_details guest_id = Ok payload2 →
     json_loads payload2 = Decoded guest_details →
     subscript res_details "CheckInDate" = Ok ci →
     subscript res_details "CheckOutDate" = Ok co →
     subscript res_details "Status" = Ok st →
     subscript guest_details "Phone" = Ok ph →
     validate_phone_number parse1 is_valid1 ph = Ok valid →
     subscript guest_details "Name" = Ok nm →
     unique_keys d →
     ∃ stay_pk guest_pk d2,
       for_each (before ++ [event]) (on_event hotel_row) d = (Ok tt, d2, [])
       ∧ Guest_objects d2
         = <[guest_pk := {| phone := ph; name := nm |}]> (Guest_objects d1)
       ∧ (∀ p g, Guest_objects d1 !! p = Some g → phone g = ph → p = guest_pk)
       ∧ ((∀ p g, Guest_objects d1 !! p = Some g → phone g ≠ ph) →
          Guest_objects d1 !! guest_pk = None)
       ∧ Stay_objects d2 !! stay_pk
         = Some {| hotel := hotel_row.1; pms_reservation_id := res_id;
                   pms_guest_id := guest_id; checkin := ci; checkout := co;
                   status := st; guest := Some guest_pk |}
       ∧ (∃ g, Guest_objects (on_webhook webhook_data d).1.2 !! guest_pk = Some g
               ∧ phone g = ph)
       ∧ (after = [] → on_webhook webhook_data d = (Ok true, d2, [])))
  ∧ ((∀ phone,
        match validate_phone_number parse1 is_valid1 phone,
              validate_phone_number parse2 is_valid2 phone with
        | Ok _, Ok _ => True
        | Raise e1, Raise e2 => e1 = e2
        | _, _ => False
        end) →
     on_webhook webhook_data d
     = handle_webhook json_loads get_reservation_details get_guest_details
         parse2 is_valid2 webhook_data d).
Proof.
  split; [| by apply handle_webhook_ignores_validation].
  intros id_hotel events event value res_id res_details guest_id guest_details
    ci co st ph nm hotel_row before after payload1 payload2 valid d1 out1
    Hid Hhotel Hevents Hitems Hbefore Hvalue Hres Hcall1 Hloads1 Hgid Hcall2 Hloads2
    Hci Hco Hst Hph Hvalid Hnm Hkeys.
  pose proof (silent_for_each before _
                (handle_event_silent json_loads get_reservation_details get_guest_details
                   parse1 is_valid1 hotel_row) d) as Hsilent.
  rewrite Hbefore in Hsilent. simpl in Hsilent. subst out1.
  pose proof (for_each_keeps_unique_keys _ _ _ _ _ _ _ _ _ _ _ Hbefore Hkeys) as Hkeys1.
  destruct (handle_event_exact json_loads get_reservation_details get_guest_details
              parse1 is_valid1
              event value res_id res_details guest_id guest_details
              ci co st ph nm hotel_row payload1 payload2 valid d1)
    as (sp & gp & d2 & Hrun & _ & Hstay & Hguest & _ & _ & Hgonly & Hgnew); try done.
  exists sp, gp, d2.
  split; [rewrite for_each_app, Hbefore; simpl; by rewrite run_bind, Hrun |].
  split; [done |]. split; [done |]. split; [done |].
  split; [by rewrite Hstay, lookup_insert_eq |].
  destruct (for_each after (on_event hotel_row) d2) as [[r3 d3] out3] eqn:Hafter.
  assert (for_each (before ++ event :: after) (on_event hotel_row) d = (r3, d3, out3))
    as Hloop.
  { rewrite for_each_app, Hbefore. simpl. by rewrite run_bind, Hrun, Hafter. }
  pose proof (handle_webhook_run _ _ _ _ _ _ _ _ _ _ _ _ _ _ Hid Hhotel Hevents Hitems Hloop)
    as Hwebhook.
  split.
  - assert ((on_webhook webhook_data d).1.2 = d3) as ->.
    { rewrite Hwebhook. by destruct r3 as [[] | []]. }
    apply for_each_extends in Hafter as (_ & _ & [Hkept _]).
    apply (Hkept gp {| phone := ph; name := nm |}). by rewrite Hguest, lookup_insert_eq.
  - intros ->. simpl in Hafter. injection Hafter as <- <- <-. exact Hwebhook.
Qed.
End guest_stored_whatever_validation.

Lemma handle_webhook_stores_guest_whatever_validation_witness :
  (∃ guest_pk d2,
     Sample.handle_webhook (Sample.webhook [Sample.event "R1"; Sample.event "R4"]) Sample.db
     = (Ok true, d2, [])
     ∧ validate_phone_number Sample.phonenumbers_parse Sample.phonenumbers_is_valid_number
         (JStr "abc") = Ok false
     ∧ Guest_objects d2 !! guest_pk = Some {| phone := JStr "abc"; name := JStr "Bob" |})
  ∧ Sample.handle_webhook (Sample.webhook [Sample.event "R4"]) Sample.db
    = handle_webhook Sample.json_loads Sample.get_reservation_details
        Sample.get_guest_details Sample.lenient_parse Sample.lenient_is_valid_number
        (Sample.webhook [Sample.event "R4"]) Sample.db.
Proof.
  split.
  - set (before := for_each [Sample.event "R1"]
                     (handle_event Sample.json_loads Sample.get_reservation_details
                        Sample.get_guest_details Sample.phonenumbers_parse
                        Sample.phonenumbers_is_valid_number
                        (1%positive, {| pms_hotel_id := JStr "H1" |}))
                     Sample.db).
    destruct (proj1 (handle_webhook_stores_guest_whatever_validation
                       Sample.json_loads Sample.get_reservation_details
                       Sample.get_guest_details
                       Sample.phonenumbers_parse Sample.phonenumbers_is_valid_number
                       Sample.lenient_parse Sample.lenient_is_valid_number
                       (Sample.webhook [Sample.event "R1"; Sample.event "R4"]) Sample.db)
                (JStr "H1") (JArr [Sample.event "R1"; Sample.event "R4"])
                (Sample.event "R4") (JObj [("ReservationId", JStr "R4")]) (JStr "R4")
                (Sample.reservation "R4" "G2" false) (JStr "G2")
                (Sample.guest_record "G2" "Bob" "abc")
                (JStr "2024-05-01") (JStr "2024-05-03") (JStr "booked")
                (JStr "abc") (JStr "Bob")
                (1%positive, {| pms_hotel_id := JStr "H1" |}) [Sample.event "R1"] []
                (Sample.dumps (Sample.reservation "R4" "G2" false))
                (Sample.dumps (Sample.guest_record "G2" "Bob" "abc"))
                false before.1.2 [])
      as (stay_pk & guest_pk & d2 & _ & Hguest & _ & _ & _ & _ & Hlast);
      try reflexivity; [apply unique_keys_Sample_db |].
    exists guest_pk, d2. split; [exact (Hlast eq_refl) |]. split; [reflexivity |].
    rewrite Hguest. apply lookup_insert_eq.
  - apply (proj2 (handle_webhook_stores_guest_whatever_validation
                    Sample.json_loads Sample.get_reservation_details
                    Sample.get_guest_details
                    Sample.phonenumbers_parse Sample.phonenumbers_is_valid_number
                    Sample.lenient_parse Sample.lenient_is_valid_number
                    (Sample.webhook [Sample.event "R4"]) Sample.db)).
    intros phone. unfold validate_phone_number, Sample.phonenumbers_parse, Sample.lenient_parse.
    repeat case_match; first [exact I | congruence].
Defined.
